(** * Website analytics tracker: model and verified properties

    A shallow embedding of [WebsiteAnalytics] (the sqlite-backed tracker that
    records page views and conversions, keeps one summary row per session and
    renders daily reports and exports).

    The relational store is modelled by its three tables as lists of rows in
    insertion order.  The table [daily_stats] is created by [setup_database]
    and never read or written afterwards; it is left out.  Every method runs
    against a [world]: the committed store, the log of the component and the
    number of store handles currently open.  What the surroundings decide
    during one call (whether a storage operation fails, what the clocks read)
    is passed to the call as an [env]. *)

From Stdlib Require Import ZArith String Ascii List Lia.
From Stdlib Require Import DecimalString DecimalNat DecimalZ.
From stdpp Require Import base option list gmap strings sorting.

Local Open Scope string_scope.

(* ===================================================================== *)
(** ** Values *)
(* ===================================================================== *)

(** Python values that reach the tracker in a payload.  [PObj] stands for a
    list or dict: a value the sqlite3 module cannot bind to a statement.
    Floats, bools and bytes are not modelled. *)
Inductive pyval : Type :=
| PNone
| PInt (z : Z)
| PStr (s : string)
| PObj.

(** Storage classes of the values the tracker stores. *)
Inductive sqlval : Type :=
| SNull
| SInt (z : Z)
| SText (s : string).

#[global] Instance pyval_eq_dec : EqDecision pyval.
Proof. solve_decision. Defined.

#[global] Instance sqlval_eq_dec : EqDecision sqlval.
Proof. solve_decision. Defined.

(** Exceptions, by the place that raises them. *)
Inductive exn : Type :=
| StorageError      (* sqlite3.OperationalError and the like *)
| BindError         (* a parameter of an unsupported type *)
| ValueError        (* urlparse on a url it refuses *)
| TypeError         (* json.dumps on a value it cannot serialise *)
| OverflowError.    (* date arithmetic out of range; an int sqlite3 cannot hold *)

#[global] Instance exn_eq_dec : EqDecision exn.
Proof. solve_decision. Defined.

(** Computations that may raise. *)
Definition res (A : Type) : Type := exn + A.

#[global] Instance res_ret : MRet res := fun A a => inr a.
#[global] Instance res_bind : MBind res := fun A B k m =>
  match m with
  | inl e => inl e
  | inr a => k a
  end.

Definition raise {A : Type} (e : exn) : res A := inl e.

(** What a method call does to its caller. *)
Inductive outcome (A : Type) : Type :=
| Returned (a : A)
| Raised (e : exn).
Arguments Returned {A} a.
Arguments Raised {A} e.

(** Decimal text of a number: [str(n)] in Python, and the text sqlite
    stores when an integer goes into a TEXT column. *)
Definition dec (n : nat) : string := NilEmpty.string_of_uint (Nat.to_uint n).
Definition dec_Z (z : Z) : string := NilZero.string_of_int (Z.to_int z).

(** The integers sqlite stores: the signed 64-bit range. *)
Definition in_int64 (z : Z) : bool :=
  ((- 2 ^ 63 <=? z) && (z <? 2 ^ 63))%Z.

(** Binding a Python value as a statement parameter.  sqlite3 raises
    OverflowError for an int outside the signed 64-bit range. *)
Definition bind_param (v : pyval) : res sqlval :=
  match v with
  | PNone => mret SNull
  | PInt z => if in_int64 z then mret (SInt z) else raise OverflowError
  | PStr s => mret (SText s)
  | PObj => raise BindError
  end.

(** A TEXT column holds NULL or text: column affinity turns an integer
    into its decimal text. *)
Definition text_affinity (v : sqlval) : option string :=
  match v with
  | SNull => None
  | SInt z => Some (dec_Z z)
  | SText s => Some s
  end.

Definition text_param (v : pyval) : res (option string) :=
  s ← bind_param v; mret (text_affinity s).

(** [dict.get(key, default)] on a payload. *)
Definition py_get (data : gmap string pyval) (key : string) (dflt : pyval) : pyval :=
  default dflt (data !! key).

(* ===================================================================== *)
(** ** Clocks *)
(* ===================================================================== *)

(** A reading of [datetime.now()]. *)
Record pydatetime : Type := mk_datetime {
  dt_year : nat; dt_month : nat; dt_day : nat;
  dt_hour : nat; dt_minute : nat; dt_second : nat;
  dt_microsecond : nat
}.

(** A value of sqlite's [CURRENT_TIMESTAMP]: a date and a time of day, as
    sqlite produces them. *)
Record sql_timestamp : Type := mk_timestamp {
  ts_year : nat; ts_month : nat; ts_day : nat;
  ts_hour : nat; ts_minute : nat; ts_second : nat
}.

Fixpoint zeros (n : nat) : string :=
  match n with
  | O => ""
  | S n' => String "0" (zeros n')
  end.

(** [%0wd] *)
Definition zfill (w : nat) (n : nat) : string :=
  zeros (w - String.length (dec n)) ++ dec n.

Definition fmt_date (y m d : nat) : string :=
  zfill 4 y ++ "-" ++ zfill 2 m ++ "-" ++ zfill 2 d.

Definition fmt_time (h m s : nat) : string :=
  zfill 2 h ++ ":" ++ zfill 2 m ++ ":" ++ zfill 2 s.

(** [datetime.isoformat()]: the fraction is printed only when it is not 0. *)
Definition isoformat (t : pydatetime) : string :=
  fmt_date (dt_year t) (dt_month t) (dt_day t) ++ "T" ++
  fmt_time (dt_hour t) (dt_minute t) (dt_second t) ++
  (if Nat.eqb (dt_microsecond t) 0 then "" else "." ++ zfill 6 (dt_microsecond t)).

(** [datetime.strftime('%Y-%m-%d')] *)
Definition strftime_ymd (t : pydatetime) : string :=
  fmt_date (dt_year t) (dt_month t) (dt_day t).

(** sqlite's [DATE()] of a stored [CURRENT_TIMESTAMP]: the text of its
    date, 'YYYY-MM-DD'. *)
Definition DATE (t : sql_timestamp) : string :=
  fmt_date (ts_year t) (ts_month t) (ts_day t).

(* ===================================================================== *)
(** ** The store *)
(* ===================================================================== *)

(** Rows of [page_views].  The two INTEGER columns keep the value as it was
    bound; no statement of the tracker reads them. *)
Record page_view : Type := mk_page_view {
  pv_id : nat;
  pv_session_id : option string;
  pv_page_url : option string;
  pv_page_title : option string;
  pv_referrer : option string;
  pv_user_agent : option string;
  pv_ip_address : option string;
  pv_country : option string;
  pv_city : option string;
  pv_timestamp : sql_timestamp;
  pv_time_on_page : sqlval;
  pv_scroll_depth : sqlval
}.

(** Rows of [sessions]; the column [duration] is never given a value. *)
Record session : Type := mk_session {
  ss_session_id : option string;
  ss_user_id : option string;
  ss_device_type : option string;
  ss_browser : option string;
  ss_os : option string;
  ss_screen_resolution : option string;
  ss_first_visit : string;
  ss_last_visit : string;
  ss_total_views : nat
}.

(** Rows of [conversions]; [page_url] is not among the inserted columns, and
    the REAL column keeps the value as it was bound: no statement reads it. *)
Record conversion : Type := mk_conversion {
  cv_id : nat;
  cv_session_id : option string;
  cv_conversion_type : option string;
  cv_conversion_value : sqlval;
  cv_page_url : option string;
  cv_form_data : option string;
  cv_timestamp : sql_timestamp
}.

(** The database: the tables and the two AUTOINCREMENT counters. *)
Record db : Type := mk_db {
  page_views : list page_view;
  sessions : list session;
  conversions : list conversion;
  seq_page_views : nat;
  seq_conversions : nat
}.

Definition empty_db : db := mk_db [] [] [] 0 0.

(** Records of the logger: the fixed text of the message and the value
    formatted after it. *)
Inductive log_entry : Type :=
| LogInfo (msg : string) (arg : pyval)
| LogError (msg : string) (e : exn).

Record world : Type := mk_world {
  w_store : db;
  w_log : list log_entry;
  w_open : nat
}.

Definition empty_world : world := mk_world empty_db [] 0.

(** What the surroundings decide during one call. *)
Record env : Type := mk_env {
  e_connect_fails : bool;          (* sqlite3.connect raises *)
  e_exec_fails : nat -> bool;      (* the k-th cursor.execute of the call raises *)
  e_commit_fails : bool;           (* conn.commit raises *)
  e_sql_now : sql_timestamp;       (* CURRENT_TIMESTAMP during the call *)
  e_now : nat -> pydatetime        (* the k-th datetime.now() of the call *)
}.

(** Library functions the tracker calls and this development leaves open. *)
Class PyRuntime : Type := {
  (* urlparse(url).path *)
  urlparse_path : pyval -> res string;
  (* json.dumps(form_data) *)
  json_dumps : gmap string pyval -> res string;
  (* (now - timedelta(days=days)).strftime('%Y-%m-%d') *)
  cutoff_date : pydatetime -> Z -> res string
}.

Definition open_handle (w : world) : world :=
  mk_world (w_store w) (w_log w) (S (w_open w)).

Definition close_handle (w : world) : world :=
  mk_world (w_store w) (w_log w) (pred (w_open w)).

Definition set_store (s : db) (w : world) : world :=
  mk_world s (w_log w) (w_open w).

Definition add_log (l : log_entry) (w : world) : world :=
  mk_world (w_store w) (w_log w ++ [l]) (w_open w).

(** A storage operation of the call: raises when the surroundings say so. *)
Definition storage_op (fails : bool) : res unit :=
  if fails then raise StorageError else mret tt.

(* ===================================================================== *)
(** ** Recording events *)
(* ===================================================================== *)

Section Tracker.
Context `{PyRuntime}.

(** The row that [ON CONFLICT(session_id) DO UPDATE] leaves in place of an
    existing one. *)
Definition touch_session (last_visit : string) (r : session) : session :=
  mk_session (ss_session_id r) (ss_user_id r) (ss_device_type r) (ss_browser r)
             (ss_os r) (ss_screen_resolution r) (ss_first_visit r)
             last_visit (S (ss_total_views r)).

(** [INSERT INTO sessions ... ON CONFLICT(session_id) DO UPDATE SET
    last_visit = ?, total_views = total_views + 1].  A NULL key conflicts
    with no row: the primary key is a TEXT column, which sqlite lets hold
    NULLs, all of them distinct. *)
Definition upsert_session (row : session) (last_visit : string)
    (ss : list session) : list session :=
  match ss_session_id row with
  | None => ss ++ [row]
  | Some sid =>
      if bool_decide (Some sid ∈ ss_session_id <$> ss)
      then (fun r => if bool_decide (ss_session_id r = Some sid)
                     then touch_session last_visit r else r) <$> ss
      else ss ++ [row]
  end.

(** The first statement of [track_page_view]. *)
Definition insert_page_view (e : env) (data : gmap string pyval) (url : pyval)
    (s : db) : res db :=
  session_id ← text_param (py_get data "session_id" PNone);
  page_url ← text_param url;
  page_title ← text_param (py_get data "page_title" (PStr ""));
  referrer ← text_param (py_get data "referrer" (PStr ""));
  user_agent ← text_param (py_get data "user_agent" (PStr ""));
  ip_address ← text_param (py_get data "ip_address" (PStr ""));
  country ← text_param (py_get data "country" (PStr "Unknown"));
  city ← text_param (py_get data "city" (PStr "Unknown"));
  time_on_page ← bind_param (py_get data "time_on_page" (PInt 0));
  scroll_depth ← bind_param (py_get data "scroll_depth" (PInt 0));
  _ ← storage_op (e_exec_fails e 0);
  let id := S (seq_page_views s) in
  mret (mk_db (page_views s ++
                 [mk_page_view id session_id page_url page_title referrer
                    user_agent ip_address country city (e_sql_now e)
                    time_on_page scroll_depth])
              (sessions s) (conversions s) id (seq_conversions s)).

(** The second statement: the three timestamps are three readings of the
    clock, taken in the order of the parameter tuple. *)
Definition insert_session (e : env) (data : gmap string pyval) (s : db) : res db :=
  session_id ← text_param (py_get data "session_id" PNone);
  user_id ← text_param (py_get data "user_id" (PStr ""));
  device_type ← text_param (py_get data "device_type" (PStr ""));
  browser ← text_param (py_get data "browser" (PStr ""));
  os ← text_param (py_get data "os" (PStr ""));
  screen_resolution ← text_param (py_get data "screen_resolution" (PStr ""));
  let first_visit := isoformat (e_now e 0) in
  let last_visit := isoformat (e_now e 1) in
  let last_visit_on_conflict := isoformat (e_now e 2) in
  _ ← storage_op (e_exec_fails e 1);
  mret (mk_db (page_views s)
              (upsert_session
                 (mk_session session_id user_id device_type browser os
                             screen_resolution first_visit last_visit 1)
                 last_visit_on_conflict (sessions s))
              (conversions s) (seq_page_views s) (seq_conversions s)).

(** The body of the [try] of [track_page_view], up to and including the
    commit: the database to commit and the path to log, or the exception. *)
Definition page_view_body (e : env) (data : gmap string pyval) (s : db)
    : res (db * string) :=
  let url := py_get data "page_url" (PStr "") in
  page_path ← urlparse_path url;
  s1 ← insert_page_view e data url s;
  s2 ← insert_session e data s1;
  _ ← storage_op (e_commit_fails e);
  mret (s2, page_path).

(** [track_page_view]: connect; try the body; on an exception log it and
    roll back; close the connection in either case. *)
Definition track_page_view (e : env) (data : gmap string pyval) (w : world)
    : outcome unit * world :=
  if e_connect_fails e then (Raised StorageError, w)
  else
    let w1 := open_handle w in
    let w2 :=
      match page_view_body e data (w_store w1) with
      | inr (s', page_path) =>
          add_log (LogInfo "Page view tracked: " (PStr page_path)) (set_store s' w1)
      | inl ex =>
          add_log (LogError "Error tracking page view: " ex) w1
      end in
    (Returned tt, close_handle w2).

(** [json.dumps(form_data) if form_data else None] *)
Definition form_data_param (form_data : option (gmap string pyval))
    : res (option string) :=
  match form_data with
  | None => mret None
  | Some m => if bool_decide (m = ∅) then mret None
              else (t ← json_dumps m; mret (Some t))
  end.

Definition conversion_body (e : env) (session_id conversion_type conversion_value : pyval)
    (form_data : option (gmap string pyval)) (s : db) : res db :=
  form ← form_data_param form_data;
  sid ← text_param session_id;
  ctype ← text_param conversion_type;
  value ← bind_param conversion_value;
  _ ← storage_op (e_exec_fails e 0);
  let id := S (seq_conversions s) in
  let s1 := mk_db (page_views s) (sessions s)
                  (conversions s ++
                     [mk_conversion id sid ctype value None form (e_sql_now e)])
                  (seq_page_views s) id in
  _ ← storage_op (e_commit_fails e);
  mret s1.

(** [track_conversion] *)
Definition track_conversion (e : env)
    (session_id conversion_type conversion_value : pyval)
    (form_data : option (gmap string pyval)) (w : world) : outcome unit * world :=
  if e_connect_fails e then (Raised StorageError, w)
  else
    let w1 := open_handle w in
    let w2 :=
      match conversion_body e session_id conversion_type conversion_value
                            form_data (w_store w1) with
      | inr s' =>
          add_log (LogInfo "Conversion tracked: " conversion_type) (set_store s' w1)
      | inl ex =>
          add_log (LogError "Error tracking conversion: " ex) w1
      end in
    (Returned tt, close_handle w2).

End Tracker.

(* ===================================================================== *)
(** ** Queries *)
(* ===================================================================== *)

(** [COUNT(DISTINCT session_id)]: NULLs are not counted. *)
Definition count_distinct (l : list (option string)) : nat :=
  length (remove_dups (omap id l)).

(** [ORDER BY n DESC] on rows that end in their count.  SQL leaves the
    order of rows with equal counts open; the model takes the one of
    stdpp's merge sort. *)
Definition count_desc {A : Type} (count : A -> nat) : relation A :=
  fun a b => count b <= count a.

#[global] Instance count_desc_dec {A : Type} (count : A -> nat) (a b : A)
  : Decision (count_desc count a b).
Proof. unfold count_desc. apply _. Defined.

Definition order_by_desc {A : Type} (count : A -> nat) (l : list A) : list A :=
  merge_sort (count_desc count) l.

(** [LIMIT n]: a negative limit is no limit. *)
Definition sql_limit {A : Type} (n : Z) (l : list A) : list A :=
  if (n <? 0)%Z then l else take (Z.to_nat n) l.

(** [SELECT key, COUNT( * ) ... GROUP BY key] *)
Definition group_count {A : Type} (key : A -> option string) (rows : list A)
    : list (option string * nat) :=
  (fun k => (k, length (filter (fun r => key r = k) rows)))
    <$> remove_dups (key <$> rows).

(** [WHERE DATE(timestamp) = ?] *)
Definition views_on (d : string) (s : db) : list page_view :=
  filter (fun r => DATE (pv_timestamp r) = d) (page_views s).

Definition conversions_on (d : string) (s : db) : list conversion :=
  filter (fun c => DATE (cv_timestamp c) = d) (conversions s).

(** [referrer != '']: false on NULL as well. *)
Definition has_referrer (r : page_view) : Prop :=
  match pv_referrer r with
  | Some t => t <> ""
  | None => False
  end.

#[global] Instance has_referrer_dec (r : page_view) : Decision (has_referrer r).
Proof. unfold has_referrer. destruct (pv_referrer r); apply _. Defined.

Definition top_pages_query (d : string) (s : db) : list (option string * nat) :=
  take 10 (order_by_desc snd (group_count pv_page_url (views_on d s))).

Definition referrers_query (d : string) (s : db) : list (option string * nat) :=
  take 10 (order_by_desc snd
             (group_count pv_referrer (filter has_referrer (views_on d s)))).

(* ===================================================================== *)
(** ** Reports *)
(* ===================================================================== *)

(** The report dict; the entries of [top_pages] and [referrers] are the
    pairs (page, views) and (referrer, visits). *)
Record report : Type := mk_report {
  r_date : string;
  r_total_visits : nat;
  r_unique_visitors : nat;
  r_page_views : nat;
  r_top_pages : list (option string * nat);
  r_referrers : list (option string * nat);
  r_conversions : nat
}.

Definition default_report (d : string) : report := mk_report d 0 0 0 [] [] 0.

(** The five queries of [get_daily_report], each with the assignments that
    follow it. *)
Definition q_visits (d : string) (s : db) (r : report) : report :=
  mk_report (r_date r)
            (length (views_on d s))
            (count_distinct (pv_session_id <$> views_on d s))
            (r_page_views r) (r_top_pages r) (r_referrers r) (r_conversions r).

Definition q_page_views (d : string) (s : db) (r : report) : report :=
  mk_report (r_date r) (r_total_visits r) (r_unique_visitors r)
            (length (views_on d s))
            (r_top_pages r) (r_referrers r) (r_conversions r).

Definition q_top_pages (d : string) (s : db) (r : report) : report :=
  mk_report (r_date r) (r_total_visits r) (r_unique_visitors r) (r_page_views r)
            (top_pages_query d s)
            (r_referrers r) (r_conversions r).

Definition q_referrers (d : string) (s : db) (r : report) : report :=
  mk_report (r_date r) (r_total_visits r) (r_unique_visitors r) (r_page_views r)
            (r_top_pages r)
            (referrers_query d s)
            (r_conversions r).

Definition q_conversions (d : string) (s : db) (r : report) : report :=
  mk_report (r_date r) (r_total_visits r) (r_unique_visitors r) (r_page_views r)
            (r_top_pages r) (r_referrers r)
            (length (conversions_on d s)).

Definition daily_queries (d : string) (s : db) : list (report -> report) :=
  [q_visits d s; q_page_views d s; q_top_pages d s; q_referrers d s;
   q_conversions d s].

(** Statements run one after the other on the report being filled, the
    first being the [k]-th [execute] of the call.  An exception stops the
    run and leaves the report as the earlier statements made it. *)
Fixpoint run_queries (e : env) (k : nat) (qs : list (report -> report))
    (r : report) : report * option exn :=
  match qs with
  | [] => (r, None)
  | q :: qs' =>
      if e_exec_fails e k then (r, Some StorageError)
      else run_queries e (S k) qs' (q r)
  end.

(** [if not date: date = datetime.now().strftime('%Y-%m-%d')] *)
Definition report_date (e : env) (date : option string) : string :=
  match date with
  | None => strftime_ymd (e_now e 0)
  | Some d => if bool_decide (d = "") then strftime_ymd (e_now e 0) else d
  end.

(** [get_daily_report] *)
Definition get_daily_report (e : env) (date : option string) (w : world)
    : outcome report * world :=
  let d := report_date e date in
  if e_connect_fails e then (Raised StorageError, w)
  else
    let w1 := open_handle w in
    let '(rep, err) :=
      run_queries e 0 (daily_queries d (w_store w1)) (default_report d) in
    let w2 :=
      match err with
      | Some ex => add_log (LogError "Error generating daily report: " ex) w1
      | None => w1
      end in
    (Returned rep, close_handle w2).

(** The report of a call in which every query ran. *)
Definition full_report (d : string) (s : db) : report :=
  mk_report d
    (length (views_on d s))
    (count_distinct (pv_session_id <$> views_on d s))
    (length (views_on d s))
    (top_pages_query d s)
    (referrers_query d s)
    (length (conversions_on d s)).

(** The number of statements, out of the first [n] of a call, that run
    before one raises. *)
Fixpoint statements_run (e : env) (k n : nat) : nat :=
  match n with
  | O => O
  | S n' => if e_exec_fails e k then O else S (statements_run e (S k) n')
  end.


(** Entries of [get_popular_pages]. *)
Record popular_page : Type := mk_popular_page {
  pp_page_url : option string;
  pp_total_views : nat;
  pp_unique_visitors : nat
}.

(** [WHERE DATE(timestamp) >= ?], a comparison of texts. *)
Definition views_since (cutoff : string) (s : db) : list page_view :=
  filter (fun r => String.leb cutoff (DATE (pv_timestamp r)) = true) (page_views s).

Definition popular_pages_query (cutoff : string) (limit : Z) (s : db)
    : list popular_page :=
  let rows := views_since cutoff s in
  sql_limit limit
    (order_by_desc pp_total_views
       ((fun u =>
           let grp := filter (fun r => pv_page_url r = u) rows in
           mk_popular_page u (length grp) (count_distinct (pv_session_id <$> grp)))
          <$> remove_dups (pv_page_url <$> rows))).

Section Reports.
Context `{PyRuntime}.

Definition popular_pages_body (e : env) (days limit : Z) (s : db)
    : res (list popular_page) :=
  cutoff ← cutoff_date (e_now e 0) days;
  _ ← bind_param (PInt limit);
  _ ← storage_op (e_exec_fails e 0);
  mret (popular_pages_query cutoff limit s).

(** [get_popular_pages] *)
Definition get_popular_pages (e : env) (days limit : Z) (w : world)
    : outcome (list popular_page) * world :=
  if e_connect_fails e then (Raised StorageError, w)
  else
    let w1 := open_handle w in
    match popular_pages_body e days limit (w_store w1) with
    | inr pages => (Returned pages, close_handle w1)
    | inl ex =>
        (Returned [],
         close_handle (add_log (LogError "Error getting popular pages: " ex) w1))
    end.

End Reports.

(* ===================================================================== *)
(** ** Export *)
(* ===================================================================== *)

Record export_payload : Type := mk_export_payload {
  x_export_date : string;
  x_summary : report;
  x_popular_pages : list popular_page
}.

(** The string [export_data] returns.  The csv text is spelled out; the
    renderings by [json.dumps(data, indent=2)] and [str(data)] are kept as
    the data they render. *)
Inductive export_text : Type :=
| JsonDumps (data : export_payload)
| CsvText (text : string)
| PyStr (data : export_payload).

Definition newline : string := String "010"%char "".

(** [str.lower()], on ASCII letters.  No other character lowers to a
    letter of 'json' or 'csv'. *)
Definition lower_ascii (c : ascii) : ascii :=
  let n := nat_of_ascii c in
  if ((65 <=? n) && (n <=? 90))%nat then ascii_of_nat (n + 32) else c.

Fixpoint lower (s : string) : string :=
  match s with
  | EmptyString => EmptyString
  | String c s' => String (lower_ascii c) (lower s')
  end.

(** [f"{v}"] of a value read from a TEXT column. *)
Definition py_text (v : option string) : string := default "None" v.

Definition csv_page_row (p : popular_page) : string :=
  py_text (pp_page_url p) ++ "," ++ dec (pp_total_views p) ++ "," ++
  dec (pp_unique_visitors p).

Definition csv_lines (data : export_payload) : list string :=
  [ "Metric,Value";
    "Export Date," ++ x_export_date data;
    "Total Visits," ++ dec (r_total_visits (x_summary data));
    "Unique Visitors," ++ dec (r_unique_visitors (x_summary data));
    "Page Views," ++ dec (r_page_views (x_summary data));
    "Conversions," ++ dec (r_conversions (x_summary data));
    "";
    "Popular Pages,Views,Unique Visitors" ]
  ++ (csv_page_row <$> x_popular_pages data).

Definition render_export (format : string) (data : export_payload) : export_text :=
  if bool_decide (lower format = "json") then JsonDumps data
  else if bool_decide (lower format = "csv")
       then CsvText (String.concat newline (csv_lines data))
       else PyStr data.

Section ExportData.
Context `{PyRuntime}.

(** [export_data]: its own connection is opened and not used; the report
    and the popular pages come from the two methods, each with its own
    call environment. *)
Definition export_data (e e_report e_pages : env) (format : string) (w : world)
    : outcome export_text * world :=
  if e_connect_fails e then (Raised StorageError, w)
  else
    let w1 := open_handle w in
    let export_date := isoformat (e_now e 0) in
    match get_daily_report e_report None w1 with
    | (Raised ex, w2) => (Raised ex, w2)
    | (Returned summary, w2) =>
        match get_popular_pages e_pages 30 20 w2 with
        | (Raised ex, w3) => (Raised ex, w3)
        | (Returned pages, w3) =>
            (Returned (render_export format
                         (mk_export_payload export_date summary pages)), w3)
        end
    end.

End ExportData.

(* ===================================================================== *)
(** ** Reading the tabular export back *)
(* ===================================================================== *)

(** A text without a line feed. *)
Fixpoint single_line (s : string) : bool :=
  match s with
  | EmptyString => true
  | String c s' => negb (Ascii.eqb c "010"%char) && single_line s'
  end.


(** [text.split(c)] *)
Fixpoint split_on (c : ascii) (s : string) : list string :=
  match s with
  | EmptyString => [EmptyString]
  | String a s' =>
      if Ascii.eqb a c then EmptyString :: split_on c s'
      else match split_on c s' with
           | l :: ls => String a l :: ls
           | [] => [String a EmptyString]
           end
  end.

Fixpoint strip_prefix (p s : string) : option string :=
  match p, s with
  | EmptyString, _ => Some s
  | String a p', String b s' => if Ascii.eqb a b then strip_prefix p' s' else None
  | String _ _, EmptyString => None
  end.

(** An unsigned decimal numeral, at least one digit. *)
Definition parse_nat (s : string) : option nat :=
  Nat.of_uint <$> NilZero.uint_of_string s.

(** The value of the first row of the export whose first cell is [name].
    The tracker has no reader for its exports; this one follows the
    description of the tabular format: rows are lines, cells are separated
    by commas, a metric row is its name and its value. *)
Definition read_metric (name : string) (csv : string) : option nat :=
  v ← head (omap (strip_prefix (name ++ ",")) (split_on "010"%char csv));
  parse_nat v.

(* ===================================================================== *)
(** ** Sequences of calls *)
(* ===================================================================== *)

Section Runs.
Context `{PyRuntime}.

(** Page views recorded one after the other. *)
Definition track_all (calls : list (env * gmap string pyval)) (w : world) : world :=
  foldl (fun w c => snd (track_page_view c.1 c.2 w)) w calls.

(** The calls a client makes on the tracker, with what the surroundings
    decide during each. *)
Inductive call : Type :=
| PageView (e : env) (data : gmap string pyval)
| Conversion (e : env) (session_id conversion_type conversion_value : pyval)
             (form_data : option (gmap string pyval))
| DailyReport (e : env) (date : option string)
| PopularPages (e : env) (days limit : Z).

Definition run_call (c : call) (w : world) : world :=
  match c with
  | PageView e data => (track_page_view e data w).2
  | Conversion e sid ctype value form => (track_conversion e sid ctype value form w).2
  | DailyReport e date => (get_daily_report e date w).2
  | PopularPages e days limit => (get_popular_pages e days limit w).2
  end.

(** A history of calls, each running to its end before the next starts. *)
Definition run_calls (calls : list call) (w : world) : world :=
  foldl (fun w c => run_call c w) w calls.

End Runs.

(** The sessions rows of a key, and the page views recorded under it. *)
Definition session_rows (sid : string) (s : db) : list session :=
  filter (fun r => ss_session_id r = Some sid) (sessions s).

Definition views_of_session (sid : string) (s : db) : list page_view :=
  filter (fun r => pv_session_id r = Some sid) (page_views s).

(** A key has no row and no view, or one row that counts its views. *)
Definition session_invariant (s : db) : Prop :=
  forall sid,
    (session_rows sid s = [] /\ views_of_session sid s = [])
    \/ (exists r, session_rows sid s = [r]
                  /\ ss_total_views r = length (views_of_session sid s)
                  /\ 0 < ss_total_views r).

(** A call in which nothing raises: the store answers, the url parses and
    every value of the payload can be bound.  A value can be bound when it
    is None, a text, or an int of the signed 64-bit range. *)
Definition bindable (v : pyval) : bool :=
  match v with
  | PObj => false
  | PInt z => in_int64 z
  | _ => true
  end.

Definition quiet (e : env) : bool :=
  negb (e_connect_fails e) && negb (e_exec_fails e 0) && negb (e_exec_fails e 1)
  && negb (e_commit_fails e).

Definition page_view_keys : list string :=
  ["session_id"; "page_url"; "page_title"; "referrer"; "user_agent";
   "ip_address"; "country"; "city"; "time_on_page"; "scroll_depth";
   "user_id"; "device_type"; "browser"; "os"; "screen_resolution"].

Definition payload_bindable (data : gmap string pyval) : bool :=
  forallb (fun k => bindable (py_get data k PNone)) page_view_keys.

(** What a bound value leaves in a TEXT column, and in a column that keeps
    the value as bound. *)
Definition column_text (v : pyval) : option string :=
  match v with
  | PNone => None
  | PInt z => Some (dec_Z z)
  | PStr s => Some s
  | PObj => None
  end.

Definition column_value (v : pyval) : sqlval :=
  match v with
  | PNone => SNull
  | PInt z => SInt z
  | PStr s => SText s
  | PObj => SNull
  end.

(** The key under which a payload is counted in [sessions]. *)
Definition session_key (data : gmap string pyval) : option string :=
  column_text (py_get data "session_id" PNone).

(** The rows a page view writes. *)
Definition recorded_page_view (e : env) (data : gmap string pyval) (id : nat)
    : page_view :=
  mk_page_view id
    (column_text (py_get data "session_id" PNone))
    (column_text (py_get data "page_url" (PStr "")))
    (column_text (py_get data "page_title" (PStr "")))
    (column_text (py_get data "referrer" (PStr "")))
    (column_text (py_get data "user_agent" (PStr "")))
    (column_text (py_get data "ip_address" (PStr "")))
    (column_text (py_get data "country" (PStr "Unknown")))
    (column_text (py_get data "city" (PStr "Unknown")))
    (e_sql_now e)
    (column_value (py_get data "time_on_page" (PInt 0)))
    (column_value (py_get data "scroll_depth" (PInt 0))).

Definition new_session (e : env) (data : gmap string pyval) : session :=
  mk_session
    (column_text (py_get data "session_id" PNone))
    (column_text (py_get data "user_id" (PStr "")))
    (column_text (py_get data "device_type" (PStr "")))
    (column_text (py_get data "browser" (PStr "")))
    (column_text (py_get data "os" (PStr "")))
    (column_text (py_get data "screen_resolution" (PStr "")))
    (isoformat (e_now e 0)) (isoformat (e_now e 1)) 1.

Definition succeeds {A : Type} (m : res A) : bool :=
  match m with
  | inr _ => true
  | inl _ => false
  end.

Section Recordable.
Context `{PyRuntime}.

(** A page view that will be recorded. *)
Definition recordable (e : env) (data : gmap string pyval) : bool :=
  quiet e && payload_bindable data
  && succeeds (urlparse_path (py_get data "page_url" (PStr ""))).

End Recordable.




(** Occurrences of a character in a text. *)
Fixpoint count_char (c : ascii) (s : string) : nat :=
  match s with
  | EmptyString => 0
  | String a s' => (if Ascii.eqb a c then 1 else 0) + count_char c s'
  end.


(* ===================================================================== *)
(** ** A runtime to compute with *)
(* ===================================================================== *)

(** Adequate for urls that are bare paths and for windows of 0 days. *)
Definition sample_runtime : PyRuntime := {|
  urlparse_path := fun v =>
    match v with
    | PStr s => inr s
    | PNone => inr ""
    | _ => inl ValueError
    end;
  json_dumps := fun _ => inr "{}";
  cutoff_date := fun t _ => inr (strftime_ymd t)
|}.

Definition no_faults (t : sql_timestamp) (now : nat -> pydatetime) : env :=
  mk_env false (fun _ => false) false t now.

(** A call in which the [k]-th statement, and no other operation, fails. *)
Definition fails_at (k : nat) (t : sql_timestamp) (now : nat -> pydatetime) : env :=
  mk_env false (fun j => Nat.eqb j k) false t now.

Definition jan5 (h m s : nat) : sql_timestamp := mk_timestamp 2024 1 5 h m s.
Definition jan5_local (us : nat) : pydatetime := mk_datetime 2024 1 5 12 0 0 us.

Definition view_of (sid url : string) : gmap string pyval :=
  {[ "session_id" := PStr sid; "page_url" := PStr url ]}.

(** Session "s1" views "/a" three times and "/b" once on 2024-01-05. *)
Definition scenario_world : world :=
  track_all (H := sample_runtime)
    [ (no_faults (jan5 9 0 0) jan5_local, view_of "s1" "/a");
      (no_faults (jan5 9 5 0) jan5_local, view_of "s1" "/b");
      (no_faults (jan5 9 6 0) jan5_local, view_of "s1" "/a");
      (no_faults (jan5 23 59 59) jan5_local, view_of "s1" "/a") ]
    empty_world.

(** The scenario, followed by a view at the first second of the next day
    and by a conversion on that day. *)
Definition scenario_next_day : world :=
  (track_conversion (H := sample_runtime)
     (no_faults (mk_timestamp 2024 1 6 8 0 0) jan5_local)
     (PStr "s2") (PStr "form_submission") (PInt 0) None
     (track_page_view (H := sample_runtime)
        (no_faults (mk_timestamp 2024 1 6 0 0 0) jan5_local)
        (view_of "s2" "/c") scenario_world).2).2.


Definition view_from (sid url referrer : string) : gmap string pyval :=
  {[ "session_id" := PStr sid; "page_url" := PStr url;
     "referrer" := PStr referrer ]}.

(** Five views on 2024-01-05: two came from one site, one from another,
    one carries no referrer (stored as the empty text) and one carries
    None (stored as NULL). *)
Definition referred_world : world :=
  track_all (H := sample_runtime)
    [ (no_faults (jan5 9 0 0) jan5_local, view_from "s1" "/a" "https://b.example/");
      (no_faults (jan5 9 1 0) jan5_local, view_from "s2" "/a" "https://a.example/");
      (no_faults (jan5 9 2 0) jan5_local, view_of "s3" "/b");
      (no_faults (jan5 9 3 0) jan5_local, view_from "s4" "/c" "https://a.example/");
      (no_faults (jan5 9 4 0) jan5_local,
       <[ "referrer" := PNone ]> (view_of "s5" "/a")) ]
    empty_world.


(** Views of session "s1" on 2024-01-05, one per url of the list, in the
    order of the list. *)
Definition views_world (urls : list string) : world :=
  track_all (H := sample_runtime)
    ((fun u => (no_faults (jan5 10 0 0) jan5_local, view_of "s1" u)) <$> urls)
    empty_world.

(** Counts 5, 5 and 3, recorded page after page and recorded mixed. *)
Definition urls_in_blocks : list string :=
  ["/a"; "/a"; "/a"; "/a"; "/a"; "/b"; "/b"; "/b"; "/b"; "/b"; "/c"; "/c"; "/c"].

Definition urls_mixed : list string :=
  ["/c"; "/b"; "/a"; "/c"; "/b"; "/a"; "/b"; "/c"; "/a"; "/b"; "/a"; "/a"; "/b"].


(* ===================================================================== *)
(** ** The contact form handler *)
(* ===================================================================== *)

(** The two methods of [str] that this development leaves open, with what
    it uses of [isdigit]: a text of ASCII digits, at least one, passes; a
    text with an ASCII character that is no digit does not, nor does the
    empty text.  Digits outside ASCII are left to the runtime. *)
Definition is_ascii_digit (c : ascii) : bool :=
  let n := nat_of_ascii c in ((48 <=? n) && (n <=? 57))%nat.

Fixpoint string_forall (p : ascii -> bool) (s : string) : bool :=
  match s with
  | EmptyString => true
  | String c s' => p c && string_forall p s'
  end.

Fixpoint string_exists (p : ascii -> bool) (s : string) : bool :=
  match s with
  | EmptyString => false
  | String c s' => p c || string_exists p s'
  end.

Class PyText : Type := {
  py_isdigit : string -> bool;
  py_strip : string -> string;
  py_isdigit_empty : py_isdigit "" = false;
  py_isdigit_digits : forall s,
    s <> "" -> string_forall is_ascii_digit s = true -> py_isdigit s = true;
  py_isdigit_other : forall s,
    string_exists (fun c => (nat_of_ascii c <? 128)%nat && negb (is_ascii_digit c)) s
      = true ->
    py_isdigit s = false
}.

(** A form: the values are texts or None. *)
Definition form_get (f : gmap string (option string)) (key : string) : option string :=
  mjoin (f !! key).

Definition form_get_default (f : gmap string (option string)) (key dflt : string)
    : option string :=
  default (Some dflt) (f !! key).

(** Truth of a value that is a text or None. *)
Definition filled (v : option string) : bool :=
  match v with
  | Some s => negb (String.eqb s "")
  | None => false
  end.

(** [c in s] and [s.replace(c, '')] for a character [c]. *)
Definition contains_char (c : ascii) (s : string) : bool :=
  string_exists (Ascii.eqb c) s.

Fixpoint remove_char (c : ascii) (s : string) : string :=
  match s with
  | EmptyString => EmptyString
  | String a s' => if Ascii.eqb a c then remove_char c s' else String a (remove_char c s')
  end.

(** The characters [validate_form_data] removes from a phone number. *)
Definition is_phone_separator (c : ascii) : bool :=
  Ascii.eqb c " " || Ascii.eqb c "-" || Ascii.eqb c "+".

Definition phone_error : string := "Invalid phone number format".


Section Validation.
Context `{PyText}.

Definition phone_digits (phone : string) : string :=
  remove_char "+" (remove_char "-" (remove_char " " phone)).

(** [validate_form_data]: the errors, in the order they are appended. *)
Definition form_errors (f : gmap string (option string)) : list string :=
  List.app
    (List.flat_map
       (fun field => if filled (form_get f field) then []
                     else [field ++ " is required"])
       ["name"; "email"; "message"])
    (List.app
       (match form_get_default f "email" "" with
        | Some email =>
            if filled (Some email) && negb (contains_char "@" email)
            then ["Invalid email address"] else []
        | None => []
        end)
       (match form_get_default f "phone" "" with
        | Some phone =>
            if filled (Some phone) && negb (py_isdigit (phone_digits phone))
            then [phone_error] else []
        | None => []
        end)).

Definition validate_form_data (f : gmap string (option string)) : bool * list string :=
  (Nat.eqb (length (form_errors f)) 0, form_errors f).

End Validation.

(** The configuration, as far as the handler reads it after the merge with
    the defaults. *)
Record config : Type := mk_config {
  cfg_save_to_file : bool;
  cfg_send_email : bool;
  cfg_company_email : string;
  cfg_admin_email : string
}.

(** A file of the submissions directory: written to its end, or opened for
    writing and left incomplete by an error. *)
Inductive file : Type :=
| Written (data : gmap string (option string))
| Torn.

(** A message handed to the SMTP server; its body is not modelled. *)
Record mail : Type := mk_mail {
  m_subject : string;
  m_from : string;
  m_to : string
}.

(** The records of the logger of the handler, one constructor per call. *)
Inductive contact_log : Type :=
| Processing (name : option string)
| ValidationFailed (errors : list string)
| SubmissionSaved (filename : string)
| SubmissionError
| EmailDisabled
| EmailSent (to : string)
| EmailError
| AutoReplySent (to : string)
| AutoReplyError
| Processed (name : option string).

Record office : Type := mk_office {
  of_files : gmap string file;
  of_outbox : list mail;
  of_log : list contact_log
}.

Definition empty_office : office := mk_office ∅ [] [].

(** What can happen to the file of a submission and to an SMTP session:
    an SMTP session can fail before the message is handed over, or after. *)
Inductive save_result : Type := SaveOk | OpenFails | WriteFails.
Inductive smtp_result : Type := Delivered | FailsBefore | FailsAfter.

(** What the surroundings decide during one [process_form]. *)
Record contact_env : Type := mk_contact_env {
  ce_save : save_result;
  ce_admin_smtp : smtp_result;
  ce_reply_smtp : smtp_result;
  ce_file_now : pydatetime;        (* the reading that names the file *)
  ce_stamp_now : pydatetime;       (* the reading stored in the file *)
  ce_response_now : pydatetime     (* the reading of the response *)
}.

(** [strftime('%Y%m%d_%H%M%S')] *)
Definition strftime_compact (t : pydatetime) : string :=
  zfill 4 (dt_year t) ++ zfill 2 (dt_month t) ++ zfill 2 (dt_day t) ++ "_" ++
  zfill 2 (dt_hour t) ++ zfill 2 (dt_minute t) ++ zfill 2 (dt_second t).

Definition submissions_dir : string := "contact_submissions".

Definition submission_filename (t : pydatetime) : string :=
  submissions_dir ++ "/submission_" ++ strftime_compact t ++ ".json".

(** [{**form_data, 'timestamp': ..., 'ip_address': ..., 'user_agent': ...}] *)
Definition submission_data (ce : contact_env) (f : gmap string (option string))
    : gmap string (option string) :=
  <[ "user_agent" := form_get_default f "user_agent" "Unknown" ]>
  (<[ "ip_address" := form_get_default f "ip" "Unknown" ]>
   (<[ "timestamp" := Some (isoformat (ce_stamp_now ce)) ]> f)).

Definition add_contact_log (l : contact_log) (o : office) : office :=
  mk_office (of_files o) (of_outbox o) (of_log o ++ [l]).

(** [save_submission] *)
Definition save_submission (cfg : config) (ce : contact_env)
    (f : gmap string (option string)) (o : office) : option string * office :=
  if negb (cfg_save_to_file cfg) then (None, o)
  else
    let filename := submission_filename (ce_file_now ce) in
    match ce_save ce with
    | SaveOk =>
        (Some filename,
         add_contact_log (SubmissionSaved filename)
           (mk_office (<[ filename := Written (submission_data ce f) ]> (of_files o))
                      (of_outbox o) (of_log o)))
    | OpenFails => (None, add_contact_log SubmissionError o)
    | WriteFails =>
        (None,
         add_contact_log SubmissionError
           (mk_office (<[ filename := Torn ]> (of_files o)) (of_outbox o) (of_log o)))
    end.

(** One SMTP session with one message. *)
Definition smtp_session (r : smtp_result) (m : mail) (sent failed : contact_log)
    (o : office) : bool * office :=
  match r with
  | Delivered =>
      (true, add_contact_log sent (mk_office (of_files o) (of_outbox o ++ [m]) (of_log o)))
  | FailsBefore => (false, add_contact_log failed o)
  | FailsAfter =>
      (false, add_contact_log failed
                (mk_office (of_files o) (of_outbox o ++ [m]) (of_log o)))
  end.

(** [send_email] *)
Definition send_email (cfg : config) (ce : contact_env)
    (f : gmap string (option string)) (o : office) : bool * office :=
  if negb (cfg_send_email cfg) then (true, add_contact_log EmailDisabled o)
  else
    smtp_session (ce_admin_smtp ce)
      (mk_mail ("New Contact Form Submission: "
                ++ py_text (form_get_default f "name" "Unknown"))
               (cfg_company_email cfg) (cfg_admin_email cfg))
      (EmailSent (cfg_admin_email cfg)) EmailError o.

(** [send_auto_reply]: it does not read the configuration switch. *)
Definition send_auto_reply (cfg : config) (ce : contact_env)
    (f : gmap string (option string)) (o : office) : bool * office :=
  match form_get f "email" with
  | Some user_email =>
      if String.eqb user_email "" then (false, o)
      else
        smtp_session (ce_reply_smtp ce)
          (mk_mail "Thank you for contacting Western Heights Inc."
                   (cfg_company_email cfg) user_email)
          (AutoReplySent user_email) AutoReplyError o
  | None => (false, o)
  end.

(** The dict [process_form] returns. *)
Inductive form_response : Type :=
| Rejected (errors : list string)
| Accepted (submission_id : option string) (email_sent auto_reply_sent : bool)
           (timestamp : string).

Section ProcessForm.
Context `{PyText}.

(** [process_form] *)
Definition process_form (cfg : config) (ce : contact_env)
    (f : gmap string (option string)) (o : office) : form_response * office :=
  let o0 := add_contact_log (Processing (form_get_default f "name" "Unknown")) o in
  let '(is_valid, errors) := validate_form_data f in
  if negb is_valid then (Rejected errors, add_contact_log (ValidationFailed errors) o0)
  else
    let '(saved_file, o1) := save_submission cfg ce f o0 in
    let '(email_sent, o2) := send_email cfg ce f o1 in
    let '(auto_reply_sent, o3) := send_auto_reply cfg ce f o2 in
    (Accepted saved_file email_sent auto_reply_sent (isoformat (ce_response_now ce)),
     add_contact_log (Processed (form_get f "name")) o3).

End ProcessForm.

(* ===================================================================== *)
(** ** The web application *)
(* ===================================================================== *)

(** What [request.get_json()] gives: it raises, or returns the object of
    the body.  A body that is JSON and no object is not modelled. *)
Inductive json_body : Type :=
| JsonError
| JsonObject (data : gmap string pyval).

(** What the routes read of a request. *)
Record request : Type := mk_request {
  rq_url : string;                       (* request.url *)
  rq_cookies : gmap string string;       (* request.cookies *)
  rq_referrer : option string;           (* request.referrer *)
  rq_user_agent : option string;         (* the User-Agent header *)
  rq_remote_addr : option string;        (* request.remote_addr *)
  rq_json : json_body;                   (* request.get_json() *)
  rq_form : gmap string string           (* request.form *)
}.

(** Exceptions that reach a route, and the records of [app.logger]. *)
Inductive app_exn : Type :=
| BadRequest
| FromTracker (e : exn).

Inductive app_log_entry : Type :=
| AppError (msg : string) (e : app_exn).

(** The site: the world of the tracker and the log of the application. *)
Record site : Type := mk_site {
  st_world : world;
  st_app_log : list app_log_entry
}.

(** [jsonify({'success': ...}), status] *)
Record json_response : Type := mk_json_response {
  rs_success : bool;
  rs_status : nat
}.

(** What [/api/contact] answers: the result of [process_form] with status
    200, or the internal error with status 500. *)
Inductive contact_response : Type :=
| FormResult (result : form_response)
| InternalError.

(** [render_template(name), status] *)
Record page_response : Type := mk_page_response {
  pg_template : string;
  pg_status : nat
}.

Module App.

(** The method of the tracker, under a name that the helper of the
    application, which has the same name, does not hide. *)
Local Abbreviation analytics_track_page_view := track_page_view (only parsing).

Section Routes.
Context `{PyRuntime} `{PyText}.

(** [x or ''] *)
Definition or_empty (x : option string) : string := default "" x.

(** The payload the helper [track_page_view(page_name)] builds. *)
Definition page_view_payload (rq : request) (page_name : string)
    : gmap string pyval :=
  {[ "session_id" := PStr (default "unknown" (rq_cookies rq !! "session_id"));
     "page_url" := PStr (rq_url rq);
     "page_title" := PStr page_name;
     "referrer" := PStr (or_empty (rq_referrer rq));
     "user_agent" := PStr (or_empty (rq_user_agent rq));
     "ip_address" := from_option PStr PNone (rq_remote_addr rq);
     "country" := PStr "Unknown";
     "city" := PStr "Unknown";
     "time_on_page" := PInt 0;
     "scroll_depth" := PInt 0 ]}.

(** The helper of the application; it has no [try]. *)
Definition track_page_view (e : env) (rq : request) (page_name : string)
    (w : world) : outcome unit * world :=
  analytics_track_page_view e (page_view_payload rq page_name) w.

Definition service_map : list (string * string) :=
  [ ("cloud-computing", "cloud-computing.html");
    ("network-systems", "network-systems.html");
    ("digital-transformation", "digital-transformation.html");
    ("managed-it", "managed-it.html");
    ("software-development", "software-development.html");
    ("cybersecurity", "cybersecurity.html") ].

(** [service_map.get(service_name)] *)
Definition service_file (service_name : string) : option string :=
  snd <$> List.find (fun kv => String.eqb (fst kv) service_name) service_map.

(** The route of a service page: the view is tracked first, then the page
    is looked up; [file_exists] is [os.path.exists]. *)
Definition service_page (e : env) (file_exists : string -> bool) (rq : request)
    (service_name : string) (w : world) : outcome page_response * world :=
  match track_page_view e rq ("Service: " ++ service_name) w with
  | (Raised ex, w') => (Raised ex, w')
  | (Returned _, w') =>
      match service_file service_name with
      | Some html_file =>
          if negb (String.eqb html_file "") && file_exists html_file
          then (Returned (mk_page_response html_file 200), w')
          else (Returned (mk_page_response "404.html" 404), w')
      | None => (Returned (mk_page_response "404.html" 404), w')
      end
  end.

(** [/api/analytics/track]: every exception is caught and answered 400. *)
Definition api_analytics_track (e : env) (rq : request) (st : site)
    : json_response * site :=
  match rq_json rq with
  | JsonError =>
      (mk_json_response false 400,
       mk_site (st_world st)
               (st_app_log st ++ [AppError "Analytics error: " BadRequest]))
  | JsonObject data =>
      match analytics_track_page_view e data (st_world st) with
      | (Returned _, w') => (mk_json_response true 200, mk_site w' (st_app_log st))
      | (Raised ex, w') =>
          (mk_json_response false 400,
           mk_site w' (st_app_log st
                       ++ [AppError "Analytics error: " (FromTracker ex)]))
      end
  end.

(** The form data [/api/contact] builds from the request. *)
Definition contact_form_data (rq : request) : gmap string (option string) :=
  {[ "name" := Some (py_strip (default "" (rq_form rq !! "name")));
     "email" := Some (py_strip (default "" (rq_form rq !! "email")));
     "phone" := Some (py_strip (default "" (rq_form rq !! "phone")));
     "company" := Some (py_strip (default "" (rq_form rq !! "company")));
     "service" := Some (default "General Inquiry" (rq_form rq !! "service"));
     "message" := Some (py_strip (default "" (rq_form rq !! "message")));
     "ip" := rq_remote_addr rq;
     "user_agent" := Some (or_empty (rq_user_agent rq)) ]}.

(** [/api/contact]: the form is processed, then a conversion is tracked,
    whatever the result of the processing. *)
Definition api_contact (cfg : config) (ce : contact_env) (e : env) (rq : request)
    (o : office) (st : site) : contact_response * office * site :=
  let form_data := contact_form_data rq in
  let '(result, o') := process_form cfg ce form_data o in
  let session_id := default "unknown" (rq_cookies rq !! "session_id") in
  match track_conversion e (PStr session_id) (PStr "contact_form") (PInt 1)
          (Some (from_option PStr PNone <$> form_data)) (st_world st) with
  | (Returned _, w') => (FormResult result, o', mk_site w' (st_app_log st))
  | (Raised ex, w') =>
      (InternalError, o',
       mk_site w' (st_app_log st ++ [AppError "Contact API error: " (FromTracker ex)]))
  end.

End Routes.
End App.


(** [isdigit] and [strip] on ASCII text, to compute with. *)
Definition ascii_isdigit (s : string) : bool :=
  negb (String.eqb s "") && string_forall is_ascii_digit s.

Definition is_ascii_space (c : ascii) : bool :=
  let n := nat_of_ascii c in ((n =? 32) || ((9 <=? n) && (n <=? 13)))%nat.

Fixpoint lstrip (s : string) : string :=
  match s with
  | EmptyString => EmptyString
  | String c s' => if is_ascii_space c then lstrip s' else s
  end.

Fixpoint rstrip (s : string) : string :=
  match s with
  | EmptyString => EmptyString
  | String c s' =>
      match rstrip s' with
      | EmptyString => if is_ascii_space c then EmptyString else String c EmptyString
      | r => String c r
      end
  end.

Lemma ascii_isdigit_digits (s : string) :
  s <> "" -> string_forall is_ascii_digit s = true -> ascii_isdigit s = true.
Proof.
  intros Hs Hd. unfold ascii_isdigit. rewrite Hd.
  destruct s; [done|reflexivity].
Qed.

Lemma ascii_isdigit_other (s : string) :
  string_exists (fun c => (nat_of_ascii c <? 128)%nat && negb (is_ascii_digit c)) s = true ->
  ascii_isdigit s = false.
Proof.
  intros He. unfold ascii_isdigit.
  assert (Hf : string_forall is_ascii_digit s = false).
  { induction s as [|c s IH]; [discriminate|]. cbn in *.
    destruct (is_ascii_digit c); cbn in *; [|done].
    rewrite andb_false_r in He. cbn in He. by apply IH. }
  rewrite Hf. apply andb_false_r.
Qed.

Definition sample_text : PyText := {|
  py_isdigit := ascii_isdigit;
  py_strip := fun s => rstrip (lstrip s);
  py_isdigit_empty := eq_refl;
  py_isdigit_digits := ascii_isdigit_digits;
  py_isdigit_other := ascii_isdigit_other
|}.

Definition sample_config : config :=
  mk_config true true "info@westernheights.inc" "bdarlingtone@westernheights.inc".

Definition calm (t : pydatetime) : contact_env :=
  mk_contact_env SaveOk Delivered Delivered t t t.

(** A form that validates. *)
Definition sample_form : gmap string (option string) :=
  {[ "name" := Some "Ada"; "email" := Some "ada@example.org";
     "phone" := Some "+265 999-123"; "message" := Some "Hello" ]}.

(* ===================================================================== *)
(** * Properties *)
(* ===================================================================== *)

(** ** Basic facts about worlds and raising computations *)

Lemma close_open (w : world) : close_handle (open_handle w) = w.
Proof. by destruct w. Qed.

Lemma close_add_log_open (l : log_entry) (w : world) :
  close_handle (add_log l (open_handle w)) = add_log l w.
Proof. by destruct w. Qed.

Lemma close_set_store_open (l : log_entry) (s : db) (w : world) :
  close_handle (add_log l (set_store s (open_handle w))) = add_log l (set_store s w).
Proof. by destruct w. Qed.

Lemma bind_inr {A B : Type} (m : res A) (k : A -> res B) (b : B) :
  m ≫= k = inr b -> exists a, m = inr a /\ k a = inr b.
Proof. destruct m as [ex|a]; [discriminate|]. intros Hk. by exists a. Qed.

Lemma bind_raise {A B : Type} (m : res A) (k : A -> res B) :
  (forall a, exists ex, k a = inl ex) -> exists ex, m ≫= k = inl ex.
Proof.
  intros Hk. destruct m as [ex|a]; [by exists ex|]. apply Hk.
Qed.

Lemma bind_of_inr {A B : Type} (a : A) (k : A -> res B) : inr a ≫= k = k a.
Proof. reflexivity. Qed.

Lemma bind_of_mret {A B : Type} (a : A) (k : A -> res B) : mret a ≫= k = k a.
Proof. reflexivity. Qed.

Lemma storage_op_false : storage_op false = inr tt.
Proof. reflexivity. Qed.

Ltac res_steps :=
  repeat (rewrite bind_of_inr || rewrite bind_of_mret || rewrite storage_op_false).

Lemma storage_op_inr (b : bool) (u : unit) : storage_op b = inr u -> b = false.
Proof. by destruct b. Qed.

(** Steps through the binds of a computation up to its storage operation. *)
Ltac raise_through :=
  repeat match goal with
         | |- exists ex, ?m ≫= _ = inl ex =>
             lazymatch m with
             | storage_op _ => fail
             | _ => apply bind_raise; intros ?
             end
         end.

Section Recording.
Context `{PyRuntime}.

(** ** The two outcomes of recording *)

(** A call that connects returns normally, whatever happens in its body:
    either the body committed, or the exception was logged and the store
    is the one the call found. *)
Lemma track_page_view_cases (e : env) (data : gmap string pyval) (w : world) :
  e_connect_fails e = false ->
  track_page_view e data w =
    match page_view_body e data (w_store w) with
    | inr (s', page_path) =>
        (Returned tt, add_log (LogInfo "Page view tracked: " (PStr page_path))
                              (set_store s' w))
    | inl ex => (Returned tt, add_log (LogError "Error tracking page view: " ex) w)
    end.
Proof.
  intros Hc. unfold track_page_view. rewrite Hc. cbn [open_handle w_store].
  destruct (page_view_body e data (w_store w)) as [ex|[s' p]].
  - by rewrite close_add_log_open.
  - by rewrite close_set_store_open.
Qed.

Lemma track_conversion_cases (e : env) (sid ctype value : pyval)
    (form : option (gmap string pyval)) (w : world) :
  e_connect_fails e = false ->
  track_conversion e sid ctype value form w =
    match conversion_body e sid ctype value form (w_store w) with
    | inr s' =>
        (Returned tt, add_log (LogInfo "Conversion tracked: " ctype) (set_store s' w))
    | inl ex => (Returned tt, add_log (LogError "Error tracking conversion: " ex) w)
    end.
Proof.
  intros Hc. unfold track_conversion. rewrite Hc. cbn [open_handle w_store].
  destruct (conversion_body e sid ctype value form (w_store w)) as [ex|s'].
  - by rewrite close_add_log_open.
  - by rewrite close_set_store_open.
Qed.

(** A failure to open the store is outside the [try]: it reaches the caller. *)
Lemma track_page_view_connect_failure (e : env) (data : gmap string pyval) (w : world) :
  e_connect_fails e = true ->
  track_page_view e data w = (Raised StorageError, w).
Proof. intros Hc. unfold track_page_view. by rewrite Hc. Qed.

Lemma insert_page_view_fault (e : env) (data : gmap string pyval) (url : pyval) (s : db) :
  e_exec_fails e 0 = true -> exists ex, insert_page_view e data url s = inl ex.
Proof.
  intros Hf. unfold insert_page_view. raise_through. rewrite Hf. cbn. eauto.
Qed.

Lemma insert_session_fault (e : env) (data : gmap string pyval) (s : db) :
  e_exec_fails e 1 = true -> exists ex, insert_session e data s = inl ex.
Proof.
  intros Hf. unfold insert_session. raise_through. rewrite Hf. cbn. eauto.
Qed.

Lemma page_view_body_fault (e : env) (data : gmap string pyval) (s : db) :
  e_exec_fails e 0 = true \/ e_exec_fails e 1 = true \/ e_commit_fails e = true ->
  exists ex, page_view_body e data s = inl ex.
Proof.
  intros Hf. unfold page_view_body.
  apply bind_raise; intros path.
  destruct (insert_page_view e data _ s) as [ex|s1] eqn:Hs1; [by exists ex|].
  rewrite bind_of_inr.
  destruct (insert_session e data s1) as [ex|s2] eqn:Hs2; [by exists ex|].
  rewrite bind_of_inr.
  destruct Hf as [Hf|[Hf|Hf]].
  - destruct (insert_page_view_fault e data (py_get data "page_url" (PStr "")) s Hf)
      as [ex Hex]. congruence.
  - destruct (insert_session_fault e data s1 Hf) as [ex Hex]. congruence.
  - cbn. rewrite Hf. cbn. eauto.
Qed.

Lemma conversion_body_fault (e : env) (sid ctype value : pyval)
    (form : option (gmap string pyval)) (s : db) :
  e_exec_fails e 0 = true \/ e_commit_fails e = true ->
  exists ex, conversion_body e sid ctype value form s = inl ex.
Proof.
  intros Hf. unfold conversion_body.
  raise_through.
  destruct (e_exec_fails e 0) eqn:H0; cbn; [eauto|].
  destruct Hf as [Hf|Hf]; [discriminate|]. rewrite Hf. cbn. eauto.
Qed.

(** C5, as the code has it.  Once the store is open, when an INSERT or
    the commit of [track_page_view] or of [track_conversion] fails, the
    call returns normally, the failure is logged as an error, and the world
    after the call is the world before it with that one log record added:
    the store is the one the call found, so no page-view row is left
    without its session update.  When the store cannot be opened, the
    exception reaches the caller and nothing is logged: the connection is
    made before the [try]; the store is unchanged then too. *)
Theorem persist_failure_is_logged_and_rolled_back (e : env) (w : world) :
  (e_connect_fails e = false ->
   (forall data,
      e_exec_fails e 0 = true \/ e_exec_fails e 1 = true \/ e_commit_fails e = true ->
      exists ex,
        track_page_view e data w =
          (Returned tt, add_log (LogError "Error tracking page view: " ex) w))
   /\
   (forall sid ctype value form,
      e_exec_fails e 0 = true \/ e_commit_fails e = true ->
      exists ex,
        track_conversion e sid ctype value form w =
          (Returned tt, add_log (LogError "Error tracking conversion: " ex) w)))
  /\
  (e_connect_fails e = true ->
   (forall data, track_page_view e data w = (Raised StorageError, w))
   /\
   (forall sid ctype value form,
      track_conversion e sid ctype value form w = (Raised StorageError, w))).
Proof.
  split.
  - intros Hc. split.
    + intros data Hf. rewrite track_page_view_cases by done.
      destruct (page_view_body_fault e data (w_store w) Hf) as [ex ->]. eauto.
    + intros sid ctype value form Hf. rewrite track_conversion_cases by done.
      destruct (conversion_body_fault e sid ctype value form (w_store w) Hf)
        as [ex ->].
      eauto.
  - intros Hc. split.
    + intros data. by apply track_page_view_connect_failure.
    + intros sid ctype value form. unfold track_conversion. by rewrite Hc.
Qed.

End Recording.

(** The theorem on the scenario, with a session update that fails after
    the page view was inserted, and with a conversion whose commit fails. *)
Lemma persist_failure_is_logged_and_rolled_back_witness :
  (track_page_view (H := sample_runtime) (fails_at 1 (jan5 10 0 0) jan5_local)
     (view_of "s1" "/a") scenario_world
   = (Returned tt,
      add_log (LogError "Error tracking page view: " StorageError) scenario_world))
  /\ w_store (track_conversion (H := sample_runtime)
                (mk_env false (fun _ => false) true (jan5 10 0 0) jan5_local)
                (PStr "s1") (PStr "form_submission") (PInt 0) None scenario_world).2
     = w_store scenario_world.
Proof.
  split.
  - destruct (persist_failure_is_logged_and_rolled_back (H := sample_runtime)
                (fails_at 1 (jan5 10 0 0) jan5_local) scenario_world)
      as [Hopen _].
    destruct (Hopen eq_refl) as [Hview _].
    destruct (Hview (view_of "s1" "/a") (or_intror (or_introl eq_refl))) as [ex Hex].
    rewrite Hex. f_equal. f_equal. f_equal.
    assert (Hlog : last (w_log (track_page_view (H := sample_runtime)
                                  (fails_at 1 (jan5 10 0 0) jan5_local)
                                  (view_of "s1" "/a") scenario_world).2)
                   = Some (LogError "Error tracking page view: " StorageError))
      by (vm_compute; reflexivity).
    rewrite Hex in Hlog. cbn [snd add_log w_log] in Hlog.
    rewrite last_snoc in Hlog. by injection Hlog.
  - destruct (persist_failure_is_logged_and_rolled_back (H := sample_runtime)
                (mk_env false (fun _ => false) true (jan5 10 0 0) jan5_local)
                scenario_world)
      as [Hopen _].
    destruct (Hopen eq_refl) as [_ Hconv].
    destruct (Hconv (PStr "s1") (PStr "form_submission") (PInt 0) None
                (or_intror eq_refl)) as [ex Hex].
    by rewrite Hex.
Defined.

(** C5 as stated fails: when the store cannot be opened, the exception
    reaches the caller of [track_page_view] and of [track_conversion], and
    no record is logged. *)
Lemma unavailable_store_raises_and_is_not_logged :
  track_page_view (H := sample_runtime)
    (mk_env true (fun _ => false) false (jan5 10 0 0) jan5_local)
    (view_of "s1" "/a") scenario_world
  = (Raised StorageError, scenario_world)
  /\ track_conversion (H := sample_runtime)
       (mk_env true (fun _ => false) false (jan5 10 0 0) jan5_local)
       (PStr "s1") (PStr "form_submission") (PInt 0) None scenario_world
     = (Raised StorageError, scenario_world).
Proof. split; reflexivity. Qed.

(** ** What a recorded page view writes *)

Lemma bindable_text_param (v : pyval) :
  bindable v = true -> text_param v = inr (column_text v).
Proof.
  destruct v as [|z|s|]; try done.
  unfold text_param. cbn [bindable bind_param]. by intros ->.
Qed.

Lemma bindable_bind_param (v : pyval) :
  bindable v = true -> bind_param v = inr (column_value v).
Proof.
  destruct v as [|z|s|]; try done.
  cbn [bindable bind_param]. by intros ->.
Qed.

Lemma bindable_py_get (data : gmap string pyval) (k : string) (d : pyval) :
  bindable (py_get data k PNone) = true -> bindable d = true ->
  bindable (py_get data k d) = true.
Proof. unfold py_get. by destruct (data !! k). Qed.

Lemma payload_bindable_key (data : gmap string pyval) (k : string) (d : pyval) :
  payload_bindable data = true -> k ∈ page_view_keys -> bindable d = true ->
  bindable (py_get data k d) = true.
Proof.
  intros Hb Hk Hd. apply bindable_py_get; [|done].
  unfold payload_bindable in Hb. rewrite forallb_forall in Hb.
  apply Hb. by apply list_elem_of_In.
Qed.

Ltac bound_keys Hb :=
  rewrite ?bindable_text_param
    by (apply payload_bindable_key; [exact Hb | set_solver | done]);
  rewrite ?bindable_bind_param
    by (apply payload_bindable_key; [exact Hb | set_solver | done]);
  rewrite ?bind_of_inr.

Section Recorded.
Context `{PyRuntime}.

Lemma quiet_inv (e : env) :
  quiet e = true ->
  e_connect_fails e = false /\ e_exec_fails e 0 = false /\
  e_exec_fails e 1 = false /\ e_commit_fails e = false.
Proof.
  unfold quiet. rewrite !andb_true_iff, !negb_true_iff. tauto.
Qed.

Lemma recordable_inv (e : env) (data : gmap string pyval) :
  recordable e data = true ->
  quiet e = true /\ payload_bindable data = true /\
  exists path, urlparse_path (py_get data "page_url" (PStr "")) = inr path.
Proof.
  unfold recordable. rewrite !andb_true_iff. intros [[Hq Hb] Hu].
  repeat split; try done.
  destruct (urlparse_path _) as [ex|path]; [discriminate|]. by exists path.
Qed.

Lemma page_view_body_recorded (e : env) (data : gmap string pyval) (s : db)
    (path : string) :
  quiet e = true -> payload_bindable data = true ->
  urlparse_path (py_get data "page_url" (PStr "")) = inr path ->
  page_view_body e data s =
    inr (mk_db (page_views s ++ [recorded_page_view e data (S (seq_page_views s))])
               (upsert_session (new_session e data) (isoformat (e_now e 2))
                               (sessions s))
               (conversions s) (S (seq_page_views s)) (seq_conversions s),
         path).
Proof.
  intros (Hc & H0 & H1 & Hm)%quiet_inv Hb Hu.
  unfold page_view_body. rewrite Hu, bind_of_inr.
  unfold insert_page_view. bound_keys Hb.
  rewrite H0. res_steps.
  unfold insert_session. cbn [page_views sessions conversions seq_page_views
                              seq_conversions].
  bound_keys Hb.
  rewrite H1. res_steps. rewrite Hm. reflexivity.
Qed.

Lemma track_page_view_recorded (e : env) (data : gmap string pyval) (w : world) :
  recordable e data = true ->
  w_store (track_page_view e data w).2 =
    mk_db (page_views (w_store w) ++
             [recorded_page_view e data (S (seq_page_views (w_store w)))])
          (upsert_session (new_session e data) (isoformat (e_now e 2))
                          (sessions (w_store w)))
          (conversions (w_store w)) (S (seq_page_views (w_store w)))
          (seq_conversions (w_store w)).
Proof.
  intros (Hq & Hb & path & Hu)%recordable_inv.
  rewrite track_page_view_cases by (by apply quiet_inv).
  by rewrite (page_view_body_recorded e data (w_store w) path).
Qed.

End Recorded.

Section Defaults.
Context `{PyRuntime}.


End Defaults.


(** A value that cannot be bound makes the INSERT raise: the event is
    logged as an error and not stored. *)
Lemma unbindable_value_is_dropped :
  track_page_view (H := sample_runtime) (no_faults (jan5 9 0 0) jan5_local)
    {[ "session_id" := PStr "s1"; "page_title" := PObj ]} empty_world
  = (Returned tt,
     add_log (LogError "Error tracking page view: " BindError) empty_world).
Proof. vm_compute. reflexivity. Qed.

(** An int outside the signed 64-bit range cannot be bound either: the
    view, the conversion and the query that carry it are dropped, with an
    error record. *)
Lemma out_of_range_int_is_dropped :
  track_page_view (H := sample_runtime) (no_faults (jan5 9 0 0) jan5_local)
    {[ "session_id" := PStr "s1"; "time_on_page" := PInt (2 ^ 63) ]} empty_world
  = (Returned tt,
     add_log (LogError "Error tracking page view: " OverflowError) empty_world)
  /\ track_conversion (H := sample_runtime) (no_faults (jan5 9 0 0) jan5_local)
       (PStr "s1") (PStr "purchase") (PInt (- 2 ^ 63 - 1)) None empty_world
     = (Returned tt,
        add_log (LogError "Error tracking conversion: " OverflowError) empty_world)
  /\ length (page_views (w_store
       (track_page_view (H := sample_runtime) (no_faults (jan5 9 0 0) jan5_local)
          {[ "session_id" := PStr "s1"; "time_on_page" := PInt (2 ^ 63 - 1);
             "scroll_depth" := PInt (- 2 ^ 63) ]} empty_world).2)) = 1.
Proof. repeat split; vm_compute; reflexivity. Qed.


(** ** The session row of a key *)

Lemma touch_session_id (t : string) (r : session) :
  ss_session_id (touch_session t r) = ss_session_id r.
Proof. reflexivity. Qed.

Lemma session_rows_nil_iff (sid : string) (s : db) :
  session_rows sid s = [] <-> Some sid ∉ ss_session_id <$> sessions s.
Proof.
  unfold session_rows. induction (sessions s) as [|r ss IH].
  - split; [set_solver|done].
  - rewrite filter_cons, fmap_cons, not_elem_of_cons. case_decide.
    + split; [done|]. intros [? _]. congruence.
    + rewrite IH. split; [|tauto]. split; [congruence|done].
Qed.

Lemma filter_touch (sid : string) (t : string) (ss : list session) :
  filter (fun r => ss_session_id r = Some sid)
         ((fun r => if bool_decide (ss_session_id r = Some sid)
                    then touch_session t r else r) <$> ss)
  = touch_session t <$> filter (fun r => ss_session_id r = Some sid) ss.
Proof.
  induction ss as [|r ss IH]; [done|]. rewrite fmap_cons.
  destruct (decide (ss_session_id r = Some sid)) as [Hr|Hr].
  - rewrite bool_decide_true by done.
    rewrite !filter_cons_True by done. by rewrite fmap_cons, IH.
  - rewrite bool_decide_false by done.
    by rewrite !filter_cons_False by done.
Qed.

(** The upsert on the rows of its own key: the first sight of the key
    inserts the row, a later one touches the row that is there. *)
Lemma upsert_session_rows (row : session) (t : string) (sid : string) (s : list session) :
  ss_session_id row = Some sid ->
  filter (fun r => ss_session_id r = Some sid) (upsert_session row t s) =
    match filter (fun r => ss_session_id r = Some sid) s with
    | [] => [row]
    | rows => touch_session t <$> rows
    end.
Proof.
  intros Hk. unfold upsert_session. rewrite Hk.
  pose proof (session_rows_nil_iff sid (mk_db [] s [] 0 0)) as Hnil.
  unfold session_rows in Hnil. cbn in Hnil.
  case_bool_decide as Hin.
  - rewrite filter_touch.
    destruct (filter _ s) as [|r rows] eqn:Hf; [|done].
    exfalso. by apply Hnil.
  - rewrite filter_app, (proj2 Hnil Hin).
    by rewrite filter_cons_True, filter_nil by done.
Qed.

Section Sessions.
Context `{PyRuntime}.

Lemma track_all_cons (c : env * gmap string pyval) (calls : list (env * gmap string pyval))
    (w : world) :
  track_all (c :: calls) w = track_all calls (track_page_view c.1 c.2 w).2.
Proof. reflexivity. Qed.

Lemma session_rows_recorded (sid : string) (e : env) (data : gmap string pyval)
    (w : world) :
  recordable e data = true -> session_key data = Some sid ->
  session_rows sid (w_store (track_page_view e data w).2) =
    match session_rows sid (w_store w) with
    | [] => [new_session e data]
    | rows => touch_session (isoformat (e_now e 2)) <$> rows
    end.
Proof.
  intros Hr Hk. rewrite track_page_view_recorded by done.
  unfold session_rows. cbn [sessions].
  by apply upsert_session_rows.
Qed.

(** Later views of a session whose row is there. *)
Lemma later_views (sid : string) (calls : list (env * gmap string pyval)) :
  forall (w : world) (r : session),
  Forall (fun c => recordable c.1 c.2 = true /\ session_key c.2 = Some sid) calls ->
  session_rows sid (w_store w) = [r] ->
  exists r',
    session_rows sid (w_store (track_all calls w)) = [r']
    /\ ss_total_views r' = ss_total_views r + length calls
    /\ ss_first_visit r' = ss_first_visit r
    /\ ss_last_visit r' =
         match last calls with
         | None => ss_last_visit r
         | Some c => isoformat (e_now c.1 2)
         end.
Proof.
  induction calls as [|c calls IH]; intros w r Hok Hrow.
  - exists r. cbn. repeat split; [done|lia].
  - apply Forall_cons in Hok as [[Hr Hk] Hok].
    rewrite track_all_cons.
    pose proof (session_rows_recorded sid c.1 c.2 w Hr Hk) as Hstep.
    rewrite Hrow in Hstep. cbn in Hstep.
    destruct (IH _ _ Hok Hstep) as (r' & Hr' & Hviews & Hfirst & Hlast).
    exists r'. repeat split; try done.
    + rewrite Hviews. cbn. lia.
    + rewrite Hlast, last_cons. by destruct (last calls).
Qed.


End Sessions.



(** ** The daily report *)

Lemma get_daily_report_cases (e : env) (date : option string) (w : world) :
  e_connect_fails e = false ->
  get_daily_report e date w =
    let d := report_date e date in
    let run := run_queries e 0 (daily_queries d (w_store w)) (default_report d) in
    (Returned run.1,
     match run.2 with
     | Some ex => add_log (LogError "Error generating daily report: " ex) w
     | None => w
     end).
Proof.
  intros Hc. unfold get_daily_report. rewrite Hc. cbn [open_handle w_store].
  destruct (run_queries _ _ _ _) as [rep [ex|]]; cbn.
  - by rewrite close_add_log_open.
  - by rewrite close_open.
Qed.

Lemma get_daily_report_connect_failure (e : env) (date : option string) (w : world) :
  e_connect_fails e = true ->
  get_daily_report e date w = (Raised StorageError, w).
Proof. intros Hc. unfold get_daily_report. by rewrite Hc. Qed.


(** A run stops at its first failing statement and keeps what the earlier
    ones assigned. *)
Lemma run_queries_prefix (e : env) (qs : list (report -> report)) :
  forall k r,
  (run_queries e k qs r).1 =
    foldl (fun r q => q r) r (take (statements_run e k (length qs)) qs).
Proof.
  induction qs as [|q qs IH]; intros k r; [done|].
  cbn. destruct (e_exec_fails e k); [done|]. by rewrite IH.
Qed.

Lemma run_queries_error (e : env) (qs : list (report -> report)) :
  forall k r,
  (run_queries e k qs r).2 =
    if bool_decide (statements_run e k (length qs) = length qs)
    then None else Some StorageError.
Proof.
  induction qs as [|q qs IH]; intros k r; [done|].
  cbn. destruct (e_exec_fails e k); [done|]. rewrite IH.
  repeat case_bool_decide; (done || lia).
Qed.

Lemma statements_run_all (e : env) (n : nat) :
  forall k, (forall j, k <= j < k + n -> e_exec_fails e j = false) ->
  statements_run e k n = n.
Proof.
  induction n as [|n IH]; intros k Hok; [done|].
  cbn. rewrite Hok by lia. f_equal. apply IH. intros j Hj. apply Hok. lia.
Qed.

Lemma statements_run_le (e : env) (n : nat) : forall k, statements_run e k n <= n.
Proof.
  induction n as [|n IH]; intros k; cbn; [lia|].
  destruct (e_exec_fails e k); [lia|]. specialize (IH (S k)). lia.
Qed.

(** When none of the five queries fails, every field of the report is
    filled, and nothing is logged. *)
Lemma get_daily_report_full (e : env) (date : option string) (w : world) :
  e_connect_fails e = false ->
  (forall k, k < 5 -> e_exec_fails e k = false) ->
  get_daily_report e date w =
    (Returned (full_report (report_date e date) (w_store w)), w).
Proof.
  intros Hc Hok. rewrite get_daily_report_cases by done. cbn zeta.
  rewrite run_queries_prefix, run_queries_error.
  rewrite statements_run_all by (intros j Hj; apply Hok; cbn in Hj; lia).
  reflexivity.
Qed.




(** ** Counts *)

Lemma length_remove_dups_le {A : Type} `{EqDecision A} (l : list A) :
  length (remove_dups l) <= length l.
Proof.
  induction l as [|x l IH]; cbn; [lia|].
  case_decide; cbn; lia.
Qed.

Lemma length_omap_le {A B : Type} (f : A -> option B) (l : list A) :
  length (omap f l) <= length l.
Proof.
  induction l as [|x l IH]; cbn; [lia|].
  destruct (f x); cbn; lia.
Qed.

Lemma count_distinct_le (l : list (option string)) : count_distinct l <= length l.
Proof.
  unfold count_distinct.
  etransitivity; [apply length_remove_dups_le|apply length_omap_le].
Qed.

(** C8. In a report whose queries all ran, the conversions field is the
    number of rows of [conversions] whose timestamp has the date of the
    report.  The count looks at no other column: stores whose conversions
    have the same timestamps, whatever their types and values, give the
    same number. *)
Theorem conversions_counts_the_day (e : env) (date : option string) (w w' : world)
    (rep : report) :
  get_daily_report e date w = (Returned rep, w') ->
  (forall k, k < 5 -> e_exec_fails e k = false) ->
  r_conversions rep =
    length (filter (fun c => DATE (cv_timestamp c) = report_date e date)
                   (conversions (w_store w)))
  /\ forall s' : db,
       cv_timestamp <$> conversions s' = cv_timestamp <$> conversions (w_store w) ->
       length (conversions_on (report_date e date) s') = r_conversions rep.
Proof.
  intros Hrep Hok.
  destruct (e_connect_fails e) eqn:Hc.
  { by rewrite get_daily_report_connect_failure in Hrep. }
  rewrite get_daily_report_full in Hrep by done.
  injection Hrep as <- _. cbn [r_conversions full_report]. split; [done|].
  intros s' Hts. unfold conversions_on.
  generalize dependent (conversions s').
  induction (conversions (w_store w)) as [|c cs IH]; intros [|c' cs'] Hts;
    try discriminate; [done|].
  rewrite !fmap_cons in Hts. injection Hts as Hc' Hts.
  rewrite !filter_cons, Hc'.
  case_decide; cbn; by rewrite (IH cs').
Qed.

(** The theorem on the continued scenario: one conversion on 2024-01-06. *)
Lemma conversions_counts_the_day_witness :
  r_conversions (full_report "2024-01-06" (w_store scenario_next_day)) = 1.
Proof.
  pose (e := no_faults (jan5 0 0 0) jan5_local).
  assert (Hrep : get_daily_report e (Some "2024-01-06") scenario_next_day
                 = (Returned (full_report "2024-01-06" (w_store scenario_next_day)),
                    scenario_next_day))
    by (by apply get_daily_report_full).
  destruct (conversions_counts_the_day e _ _ _ _ Hrep) as [Hn _]; [done|].
  rewrite Hn. vm_compute. reflexivity.
Defined.

(** ** Ordering by count *)

#[global] Instance count_desc_transitive {A : Type} (count : A -> nat) :
  Transitive (count_desc count).
Proof. unfold count_desc. intros a b c ? ?. lia. Qed.

#[global] Instance count_desc_total {A : Type} (count : A -> nat) :
  Total (count_desc count).
Proof. unfold count_desc. intros a b. lia. Qed.

Lemma order_by_desc_sorted {A : Type} (count : A -> nat) (l : list A) :
  StronglySorted (count_desc count) (order_by_desc count l).
Proof. apply StronglySorted_merge_sort; apply _. Qed.

Lemma order_by_desc_perm {A : Type} (count : A -> nat) (l : list A) :
  order_by_desc count l ≡ₚ l.
Proof. apply merge_sort_Permutation. Qed.

Lemma StronglySorted_take {A : Type} (R : relation A) (n : nat) (l : list A) :
  StronglySorted R l -> StronglySorted R (take n l).
Proof.
  intros Hs. rewrite <- (take_drop n l) in Hs.
  by apply StronglySorted_app_1_l in Hs.
Qed.


Lemma sql_limit_subseteq {A : Type} (n : Z) (l : list A) : sql_limit n l ⊆ l.
Proof. unfold sql_limit. destruct (n <? 0)%Z; [done|apply subseteq_take]. Qed.

(** ** Grouping *)

Lemma group_count_keys {A : Type} (key : A -> option string) (rows : list A) :
  (group_count key rows).*1 = remove_dups (key <$> rows).
Proof.
  unfold group_count. rewrite <- list_fmap_compose.
  induction (remove_dups (key <$> rows)) as [|k ks IH]; [done|].
  cbn. by rewrite IH.
Qed.

Lemma group_count_elem {A : Type} (key : A -> option string) (rows : list A)
    (k : option string) (n : nat) :
  (k, n) ∈ group_count key rows ->
  n = length (filter (fun r => key r = k) rows) /\ 0 < n.
Proof.
  unfold group_count. intros (k' & Heq & Hk')%list_elem_of_fmap.
  injection Heq as -> ->. split; [done|].
  apply elem_of_remove_dups, list_elem_of_fmap in Hk' as (r & -> & Hr).
  assert (r ∈ filter (fun r' => key r' = key r) rows) as Hin
    by (by apply list_elem_of_filter).
  destruct (filter _ rows); [by apply elem_of_nil in Hin|cbn; lia].
Qed.





(** Counts 5, 5 and 3: the page of count 3 is last in either order of
    recording. *)
Lemma top_pages_5_5_3_in_blocks :
  (r_top_pages (full_report "2024-01-05" (w_store (views_world urls_in_blocks)))).*2
    = [5; 5; 3]
  /\ last (r_top_pages (full_report "2024-01-05" (w_store (views_world urls_in_blocks))))
     = Some (Some "/c", 3).
Proof. vm_compute. by split. Qed.

Lemma top_pages_5_5_3_mixed :
  (r_top_pages (full_report "2024-01-05" (w_store (views_world urls_mixed)))).*2
    = [5; 5; 3]
  /\ last (r_top_pages (full_report "2024-01-05" (w_store (views_world urls_mixed))))
     = Some (Some "/c", 3).
Proof. vm_compute. by split. Qed.

(** The scenario: one visitor, four visits, "/a" three times and "/b" once. *)
Lemma scenario_report :
  (get_daily_report (no_faults (jan5 0 0 0) jan5_local) (Some "2024-01-05")
     scenario_world).1
  = Returned (mk_report "2024-01-05" 4 1 4 [(Some "/a", 3); (Some "/b", 1)] [] 0).
Proof. vm_compute. reflexivity. Qed.

(** ** Popular pages *)

Lemma popular_pages_query_elem (cutoff : string) (limit : Z) (s : db) (p : popular_page) :
  p ∈ popular_pages_query cutoff limit s ->
  pp_unique_visitors p <= pp_total_views p.
Proof.
  unfold popular_pages_query. cbv zeta. intros Hp.
  apply sql_limit_subseteq in Hp. rewrite order_by_desc_perm in Hp.
  apply list_elem_of_fmap in Hp as (u & -> & _). cbn.
  etransitivity; [apply count_distinct_le|]. by rewrite length_fmap.
Qed.

Section Consistency.
Context `{PyRuntime}.

Lemma get_popular_pages_cases (e : env) (days limit : Z) (w : world) :
  e_connect_fails e = false ->
  get_popular_pages e days limit w =
    match popular_pages_body e days limit (w_store w) with
    | inr pages => (Returned pages, w)
    | inl ex => (Returned [], add_log (LogError "Error getting popular pages: " ex) w)
    end.
Proof.
  intros Hc. unfold get_popular_pages. rewrite Hc. cbn [open_handle w_store].
  destruct (popular_pages_body e days limit (w_store w)) as [ex|pages].
  - by rewrite close_add_log_open.
  - by rewrite close_open.
Qed.

Lemma get_popular_pages_connect_failure (e : env) (days limit : Z) (w : world) :
  e_connect_fails e = true ->
  get_popular_pages e days limit w = (Raised StorageError, w).
Proof. intros Hc. unfold get_popular_pages. by rewrite Hc. Qed.

Lemma popular_pages_body_elem (e : env) (days limit : Z) (s : db)
    (pages : list popular_page) (p : popular_page) :
  popular_pages_body e days limit s = inr pages -> p ∈ pages ->
  pp_unique_visitors p <= pp_total_views p.
Proof.
  unfold popular_pages_body.
  intros (cutoff & _ & (lim & _ & (u & _ & Hq)%bind_inr)%bind_inr)%bind_inr Hp.
  injection Hq as <-. by eapply popular_pages_query_elem.
Qed.

(** C10. In a daily report whose five queries all ran, page_views equals
    total_visits and unique_visitors is at most total_visits; and in every
    entry that [get_popular_pages] returns, unique_visitors is at most
    total_views. *)
Theorem report_counts_are_consistent :
  (forall (e : env) (date : option string) (w w' : world) (rep : report),
     get_daily_report e date w = (Returned rep, w') ->
     (forall k, k < 5 -> e_exec_fails e k = false) ->
     r_page_views rep = r_total_visits rep
     /\ r_unique_visitors rep <= r_total_visits rep)
  /\
  (forall (e : env) (days limit : Z) (w w' : world) (pages : list popular_page)
          (p : popular_page),
     get_popular_pages e days limit w = (Returned pages, w') ->
     p ∈ pages ->
     pp_unique_visitors p <= pp_total_views p).
Proof.
  split.
  - intros e date w w' rep Hrep Hok.
    destruct (e_connect_fails e) eqn:Hc.
    { by rewrite get_daily_report_connect_failure in Hrep. }
    rewrite get_daily_report_full in Hrep by done.
    injection Hrep as <- _. cbn. split; [done|].
    etransitivity; [apply count_distinct_le|]. by rewrite length_fmap.
  - intros e days limit w w' pages p Hpages Hp.
    destruct (e_connect_fails e) eqn:Hc.
    { by rewrite get_popular_pages_connect_failure in Hpages. }
    rewrite get_popular_pages_cases in Hpages by done.
    destruct (popular_pages_body e days limit (w_store w)) as [ex|pages'] eqn:Hbody.
    + injection Hpages as <- _. by apply elem_of_nil in Hp.
    + injection Hpages as <- _. by eapply popular_pages_body_elem.
Qed.

End Consistency.

(** The theorem on the scenario: its daily report, and the first of its
    popular pages. *)
Lemma report_counts_are_consistent_witness :
  (r_page_views (full_report "2024-01-05" (w_store scenario_world))
   = r_total_visits (full_report "2024-01-05" (w_store scenario_world))
   /\ r_unique_visitors (full_report "2024-01-05" (w_store scenario_world))
      <= r_total_visits (full_report "2024-01-05" (w_store scenario_world)))
  /\ pp_unique_visitors (mk_popular_page (Some "/a") 3 1)
     <= pp_total_views (mk_popular_page (Some "/a") 3 1).
Proof.
  pose (e := no_faults (jan5 0 0 0) jan5_local).
  destruct (report_counts_are_consistent (H := sample_runtime)) as [Hdaily Hpopular].
  split.
  - apply (Hdaily e (Some "2024-01-05") scenario_world scenario_world); [|done].
    by apply get_daily_report_full.
  - apply (Hpopular e 0%Z 10%Z scenario_world scenario_world
             [mk_popular_page (Some "/a") 3 1; mk_popular_page (Some "/b") 1 1]).
    + vm_compute. reflexivity.
    + apply list_elem_of_here.
Defined.

(** ** Errors while a report is built *)

Lemma foldl_fixed {A : Type} (qs : list (A -> A)) (a : A) :
  Forall (fun q => q a = a) qs -> foldl (fun r q => q r) a qs = a.
Proof. induction 1 as [|q qs Hq _ IH]; cbn; [done|]. by rewrite Hq. Qed.

Lemma daily_queries_empty_day (d : string) (s : db) :
  views_on d s = [] -> conversions_on d s = [] ->
  Forall (fun q => q (default_report d) = default_report d) (daily_queries d s).
Proof.
  intros Hv Hc. unfold daily_queries.
  repeat constructor;
    unfold q_visits, q_page_views, q_top_pages, q_referrers, q_conversions,
           top_pages_query, referrers_query;
    by rewrite ?Hv, ?Hc.
Qed.

Section ReportErrors.
Context `{PyRuntime}.

Lemma popular_pages_body_raises (e : env) (days limit : Z) (s : db) :
  e_exec_fails e 0 = true \/ (exists ex, cutoff_date (e_now e 0) days = inl ex) ->
  exists ex, popular_pages_body e days limit s = inl ex.
Proof.
  intros [Hf|[ex Hex]]; unfold popular_pages_body.
  - apply bind_raise; intros cutoff. apply bind_raise; intros lim.
    rewrite Hf. cbn. eauto.
  - rewrite Hex. by exists ex.
Qed.

(** C6, as the code has it.  Once the store is open, no error of a query
    reaches the caller of [get_daily_report] or of [get_popular_pages].
    The daily report that is returned holds what the queries before the
    failing one assigned and the defaults in the other fields; it is the
    default report when the first query fails, and also when no stored
    event has the date asked for, as with a text that is no date.
    [get_popular_pages] returns the empty list when its query or the
    computation of its cutoff date fails. *)
Theorem report_errors_are_not_propagated (e : env) (w : world) :
  e_connect_fails e = false ->
  (forall date,
     (get_daily_report e date w).1 =
       Returned (foldl (fun r q => q r) (default_report (report_date e date))
                   (take (statements_run e 0 5)
                         (daily_queries (report_date e date) (w_store w)))))
  /\ (forall date,
        e_exec_fails e 0 = true ->
        (get_daily_report e date w).1 = Returned (default_report (report_date e date)))
  /\ (forall date,
        views_on (report_date e date) (w_store w) = [] ->
        conversions_on (report_date e date) (w_store w) = [] ->
        (get_daily_report e date w).1 = Returned (default_report (report_date e date)))
  /\ (forall days limit,
        e_exec_fails e 0 = true \/ (exists ex, cutoff_date (e_now e 0) days = inl ex) ->
        (get_popular_pages e days limit w).1 = Returned []).
Proof.
  intros Hc.
  assert (Hprefix : forall date,
     (get_daily_report e date w).1 =
       Returned (foldl (fun r q => q r) (default_report (report_date e date))
                   (take (statements_run e 0 5)
                         (daily_queries (report_date e date) (w_store w))))).
  { intros date. rewrite get_daily_report_cases by done. cbv zeta. cbn [fst].
    by rewrite run_queries_prefix. }
  split; [done|]. split; [|split].
  - intros date Hf. rewrite Hprefix. cbn [statements_run]. by rewrite Hf.
  - intros date Hv Hcv. rewrite Hprefix. f_equal.
    apply foldl_fixed, Forall_take. by apply daily_queries_empty_day.
  - intros days limit Hf. rewrite get_popular_pages_cases by done.
    by destruct (popular_pages_body_raises e days limit (w_store w) Hf) as [ex ->].
Qed.

End ReportErrors.

(** The theorem on the scenario, with a first query that fails. *)
Lemma report_errors_are_not_propagated_witness :
  (get_daily_report (fails_at 0 (jan5 0 0 0) jan5_local) (Some "2024-01-05")
     scenario_world).1
  = Returned (default_report "2024-01-05")
  /\ (get_popular_pages (H := sample_runtime) (fails_at 0 (jan5 0 0 0) jan5_local)
        7 10 scenario_world).1
     = Returned [].
Proof.
  destruct (report_errors_are_not_propagated (H := sample_runtime)
              (fails_at 0 (jan5 0 0 0) jan5_local) scenario_world eq_refl)
    as (_ & Hfirst & _ & Hpages).
  split.
  - by apply (Hfirst (Some "2024-01-05")).
  - apply Hpages. by left.
Defined.

(** A text that is no date matches no stored event: the report is the
    default one, and no error occurs. *)
Lemma report_for_a_text_that_is_no_date :
  get_daily_report (no_faults (jan5 0 0 0) jan5_local) (Some "05/01/2024")
    scenario_world
  = (Returned (default_report "05/01/2024"), scenario_world).
Proof. vm_compute. reflexivity. Qed.

(** A limit outside the signed 64-bit range cannot be bound: the query
    is not run, the error is logged and the list is empty. *)
Lemma popular_pages_limit_out_of_range :
  get_popular_pages (H := sample_runtime) (no_faults (jan5 0 0 0) jan5_local)
    7 (2 ^ 63) scenario_world
  = (Returned [],
     add_log (LogError "Error getting popular pages: " OverflowError) scenario_world).
Proof. vm_compute. reflexivity. Qed.

(** C6 as stated fails: when the third query fails on the scenario, the
    report that is returned carries the counts of the first two queries; it
    is not the default report. *)
Lemma failing_query_leaves_partial_report :
  (get_daily_report (fails_at 2 (jan5 0 0 0) jan5_local) (Some "2024-01-05")
     scenario_world).1
  = Returned (mk_report "2024-01-05" 4 1 4 [] [] 0)
  /\ mk_report "2024-01-05" 4 1 4 [] [] 0 <> default_report "2024-01-05".
Proof.
  split; [vm_compute; reflexivity|discriminate].
Qed.

(** ** Store handles *)

Lemma get_daily_report_handles (e : env) (date : option string) (w : world) :
  w_open (get_daily_report e date w).2 = w_open w.
Proof.
  destruct (e_connect_fails e) eqn:Hc.
  - by rewrite get_daily_report_connect_failure.
  - rewrite get_daily_report_cases by done. cbv zeta. cbn [snd].
    by destruct (run_queries _ _ _ _).2.
Qed.

Section Handles.
Context `{PyRuntime}.

Lemma track_page_view_handles (e : env) (data : gmap string pyval) (w : world) :
  w_open (track_page_view e data w).2 = w_open w.
Proof.
  destruct (e_connect_fails e) eqn:Hc.
  - by rewrite track_page_view_connect_failure.
  - rewrite track_page_view_cases by done.
    by destruct (page_view_body e data (w_store w)) as [ex|[s' p]].
Qed.

Lemma track_conversion_handles (e : env) (sid ctype value : pyval)
    (form : option (gmap string pyval)) (w : world) :
  w_open (track_conversion e sid ctype value form w).2 = w_open w.
Proof.
  destruct (e_connect_fails e) eqn:Hc.
  - unfold track_conversion. by rewrite Hc.
  - rewrite track_conversion_cases by done.
    by destruct (conversion_body e sid ctype value form (w_store w)).
Qed.

Lemma get_popular_pages_handles (e : env) (days limit : Z) (w : world) :
  w_open (get_popular_pages e days limit w).2 = w_open w.
Proof.
  destruct (e_connect_fails e) eqn:Hc.
  - by rewrite get_popular_pages_connect_failure.
  - rewrite get_popular_pages_cases by done.
    by destruct (popular_pages_body e days limit (w_store w)).
Qed.

(** C7 on the code: [export_data] opens a handle of its own and has no
    path that closes it.  Whenever its connection opens, the call ends,
    by a return or by an exception of one of the two methods it calls,
    with one more handle open than before. *)
Theorem export_data_leaves_its_handle_open (e e_report e_pages : env)
    (format : string) (w : world) :
  e_connect_fails e = false ->
  w_open (export_data e e_report e_pages format w).2 = S (w_open w).
Proof.
  intros Hc. unfold export_data. rewrite Hc.
  pose proof (get_daily_report_handles e_report None (open_handle w)) as Hrep.
  destruct (get_daily_report e_report None (open_handle w)) as [[summary|ex] w2];
    cbn [snd] in Hrep; [|done].
  pose proof (get_popular_pages_handles e_pages 30 20 w2) as Hpages.
  destruct (get_popular_pages e_pages 30 20 w2) as [[pages|ex] w3];
    cbn [snd] in *; by rewrite Hpages, Hrep.
Qed.

End Handles.

(** The theorem on an export of the empty store. *)
Lemma export_data_leaves_its_handle_open_witness :
  w_open (export_data (H := sample_runtime)
            (no_faults (jan5 0 0 0) jan5_local) (no_faults (jan5 0 0 0) jan5_local)
            (no_faults (jan5 0 0 0) jan5_local) "json" empty_world).2 = 1.
Proof.
  exact (export_data_leaves_its_handle_open (H := sample_runtime)
           (no_faults (jan5 0 0 0) jan5_local) (no_faults (jan5 0 0 0) jan5_local)
           (no_faults (jan5 0 0 0) jan5_local) "json" empty_world eq_refl).
Defined.

(** ** The tabular export *)

Lemma append_String (c : ascii) (a b : string) :
  String c a ++ b = String c (a ++ b).
Proof. reflexivity. Qed.

Lemma append_empty (b : string) : EmptyString ++ b = b.
Proof. reflexivity. Qed.

Lemma single_line_app (a b : string) :
  single_line (a ++ b) = single_line a && single_line b.
Proof.
  induction a as [|c a IH]; [done|].
  rewrite append_String. cbn. by rewrite IH, andb_assoc.
Qed.

Lemma single_line_uint (d : Decimal.uint) : single_line (NilEmpty.string_of_uint d) = true.
Proof. induction d; cbn; auto. Qed.

Lemma single_line_dec (n : nat) : single_line (dec n) = true.
Proof. apply single_line_uint. Qed.

Lemma single_line_zeros (n : nat) : single_line (zeros n) = true.
Proof. induction n; cbn; auto. Qed.

Lemma single_line_zfill (w n : nat) : single_line (zfill w n) = true.
Proof.
  unfold zfill. by rewrite single_line_app, single_line_zeros, single_line_dec.
Qed.

Lemma single_line_isoformat (t : pydatetime) : single_line (isoformat t) = true.
Proof.
  unfold isoformat, fmt_date, fmt_time.
  destruct (Nat.eqb (dt_microsecond t) 0);
    rewrite ?single_line_app, ?single_line_zfill; reflexivity.
Qed.

Lemma split_on_line (a b : string) :
  single_line a = true ->
  split_on "010"%char (a ++ newline ++ b) = a :: split_on "010"%char b.
Proof.
  change (newline ++ b) with (String "010"%char b).
  induction a as [|c a IH]; [intros _; by rewrite append_empty|].
  rewrite append_String. cbn.
  intros [Hc Ha]%andb_true_iff. apply negb_true_iff in Hc.
  rewrite Hc. by rewrite IH.
Qed.

Lemma strip_prefix_app (p s : string) : strip_prefix p (p ++ s) = Some s.
Proof.
  induction p as [|c p IH]; [rewrite append_empty; by destruct s|].
  rewrite append_String. cbn. by rewrite Ascii.eqb_refl.
Qed.

Lemma to_uint_not_nil (n : nat) : Nat.to_uint n <> Decimal.Nil.
Proof.
  rewrite <- (DecimalNat.Unsigned.of_to n), DecimalNat.Unsigned.to_of.
  apply DecimalFacts.unorm_nonnil.
Qed.

Lemma dec_not_empty (n : nat) : dec n <> EmptyString.
Proof.
  unfold dec. pose proof (to_uint_not_nil n) as Hn.
  by destruct (Nat.to_uint n).
Qed.

Lemma parse_nat_dec (n : nat) : parse_nat (dec n) = Some n.
Proof.
  unfold parse_nat, NilZero.uint_of_string.
  pose proof (dec_not_empty n) as Hne.
  destruct (dec n) as [|c s] eqn:Hdec; [done|].
  rewrite <- Hdec. unfold dec. rewrite NilEmpty.usu. cbn.
  by rewrite DecimalNat.Unsigned.of_to.
Qed.

Lemma concat_cons (sep x y : string) (l : list string) :
  String.concat sep (x :: y :: l) = x ++ sep ++ String.concat sep (y :: l).
Proof. reflexivity. Qed.


Section RoundTrip.
Context `{PyRuntime}.


End RoundTrip.


(** ** One row per session, counting its views *)

Lemma text_param_inr (v : pyval) (x : option string) :
  text_param v = inr x -> x = column_text v.
Proof.
  unfold text_param. destruct v as [|z|s|]; cbn [bind_param];
    try destruct (in_int64 z); intros Hx; by inversion Hx.
Qed.

Lemma bind_param_inr (v : pyval) (x : sqlval) :
  bind_param v = inr x -> x = column_value v.
Proof.
  destruct v as [|z|s|]; cbn [bind_param];
    try destruct (in_int64 z); intros Hx; by inversion Hx.
Qed.

Ltac invert_binds H :=
  repeat match type of H with
         | _ ≫= _ = inr _ =>
             let x := fresh "x" in
             let Hx := fresh "Hx" in
             apply bind_inr in H as (x & Hx & H);
             first [ apply text_param_inr in Hx
                   | apply bind_param_inr in Hx
                   | apply storage_op_inr in Hx
                   | idtac ]
         end.

Section Invariant.
Context `{PyRuntime}.

(** A body that does not raise wrote the two rows of the view. *)
Lemma page_view_body_inr (e : env) (data : gmap string pyval) (s s' : db)
    (path : string) :
  page_view_body e data s = inr (s', path) ->
  s' = mk_db (page_views s ++ [recorded_page_view e data (S (seq_page_views s))])
             (upsert_session (new_session e data) (isoformat (e_now e 2)) (sessions s))
             (conversions s) (S (seq_page_views s)) (seq_conversions s).
Proof.
  unfold page_view_body. intros Hbody.
  apply bind_inr in Hbody as (p & _ & Hbody).
  apply bind_inr in Hbody as (s1 & Hs1 & Hbody).
  apply bind_inr in Hbody as (s2 & Hs2 & Hbody).
  apply bind_inr in Hbody as (u & _ & Hbody).
  injection Hbody as <- _.
  unfold insert_page_view in Hs1. invert_binds Hs1. injection Hs1 as <-.
  unfold insert_session in Hs2. invert_binds Hs2. injection Hs2 as <-.
  subst. reflexivity.
Qed.

Lemma conversion_body_inr (e : env) (sid ctype value : pyval)
    (form : option (gmap string pyval)) (s s' : db) :
  conversion_body e sid ctype value form s = inr s' ->
  page_views s' = page_views s /\ sessions s' = sessions s
  /\ exists c, conversions s' = (conversions s ++ [c])%list
               /\ cv_timestamp c = e_sql_now e
               /\ cv_conversion_type c = column_text ctype
               /\ cv_conversion_value c = column_value value.
Proof.
  unfold conversion_body. intros Hbody. invert_binds Hbody.
  injection Hbody as <-. subst. cbn. repeat split. eexists. by repeat split.
Qed.

End Invariant.

Lemma filter_touch_other (sid k : string) (t : string) (ss : list session) :
  k <> sid ->
  filter (fun r => ss_session_id r = Some sid)
         ((fun r => if bool_decide (ss_session_id r = Some k)
                    then touch_session t r else r) <$> ss)
  = filter (fun r => ss_session_id r = Some sid) ss.
Proof.
  intros Hk. induction ss as [|r ss IH]; [done|]. rewrite fmap_cons.
  destruct (decide (ss_session_id r = Some sid)) as [Hr|Hr].
  - rewrite bool_decide_false by congruence.
    by rewrite !filter_cons_True, IH by done.
  - rewrite (filter_cons_False _ r) by done.
    case_bool_decide.
    + by rewrite filter_cons_False by (by rewrite touch_session_id).
    + by rewrite filter_cons_False by done.
Qed.

(** The upsert leaves the rows of every other key as they are. *)
Lemma upsert_other_key (row : session) (t : string) (sid : string) (ss : list session) :
  ss_session_id row <> Some sid ->
  filter (fun r => ss_session_id r = Some sid) (upsert_session row t ss)
  = filter (fun r => ss_session_id r = Some sid) ss.
Proof.
  intros Hk. unfold upsert_session.
  assert (Happ : filter (fun r => ss_session_id r = Some sid) (ss ++ [row])%list
                 = filter (fun r => ss_session_id r = Some sid) ss).
  { rewrite filter_app, filter_cons_False, filter_nil by done. apply app_nil_r. }
  destruct (ss_session_id row) as [k|] eqn:Hrow; [|done].
  case_bool_decide; [|done].
  apply filter_touch_other. congruence.
Qed.

Lemma session_invariant_fields (s s' : db) :
  page_views s' = page_views s -> sessions s' = sessions s ->
  session_invariant s -> session_invariant s'.
Proof.
  intros Hv Hs Hinv sid. specialize (Hinv sid).
  unfold session_rows, views_of_session in *. by rewrite Hv, Hs.
Qed.

Lemma get_daily_report_store (e : env) (date : option string) (w : world) :
  w_store (get_daily_report e date w).2 = w_store w.
Proof.
  destruct (e_connect_fails e) eqn:Hc.
  - by rewrite get_daily_report_connect_failure.
  - rewrite get_daily_report_cases by done. cbv zeta. cbn [snd].
    by destruct (run_queries _ _ _ _).2.
Qed.

Section InvariantKept.
Context `{PyRuntime}.

Lemma get_popular_pages_store (e : env) (days limit : Z) (w : world) :
  w_store (get_popular_pages e days limit w).2 = w_store w.
Proof.
  destruct (e_connect_fails e) eqn:Hc.
  - by rewrite get_popular_pages_connect_failure.
  - rewrite get_popular_pages_cases by done.
    by destruct (popular_pages_body e days limit (w_store w)).
Qed.

Lemma session_invariant_page_view (e : env) (data : gmap string pyval) (w : world) :
  session_invariant (w_store w) ->
  session_invariant (w_store (track_page_view e data w).2).
Proof.
  intros Hinv.
  destruct (e_connect_fails e) eqn:Hc.
  { by rewrite track_page_view_connect_failure. }
  rewrite track_page_view_cases by done.
  destruct (page_view_body e data (w_store w)) as [ex|[s' path]] eqn:Hbody; [done|].
  apply page_view_body_inr in Hbody. cbn [snd w_store add_log set_store].
  subst s'. intros sid. specialize (Hinv sid).
  unfold session_rows, views_of_session in *. cbn [sessions page_views].
  rewrite filter_app.
  destruct (decide (session_key data = Some sid)) as [Hk|Hk].
  - rewrite upsert_session_rows by done.
    rewrite (filter_cons_True _ (recorded_page_view _ _ _)) by done.
    rewrite filter_nil, length_app. right.
    destruct Hinv as [[-> ->]|(r & -> & Hr & Hpos)].
    + eexists. split; [done|]. cbn. split; lia.
    + eexists. split; [done|]. cbn. split; lia.
  - rewrite upsert_other_key by done.
    rewrite (filter_cons_False _ (recorded_page_view _ _ _)) by done.
    by rewrite filter_nil, app_nil_r.
Qed.

Lemma session_invariant_call (c : call) (w : world) :
  session_invariant (w_store w) -> session_invariant (w_store (run_call c w)).
Proof.
  intros Hinv. destruct c as [e data|e sid ctype value form|e date|e days limit];
    cbn [run_call].
  - by apply session_invariant_page_view.
  - destruct (e_connect_fails e) eqn:Hc.
    { unfold track_conversion. by rewrite Hc. }
    rewrite track_conversion_cases by done.
    destruct (conversion_body e sid ctype value form (w_store w)) as [ex|s'] eqn:Hbody;
      [done|].
    apply conversion_body_inr in Hbody as (Hv & Hs & _).
    by apply (session_invariant_fields (w_store w)).
  - by rewrite get_daily_report_store.
  - by rewrite get_popular_pages_store.
Qed.

(** X1. Whatever the history of calls on a fresh store, and whichever of
    them failed, every session key has at most one row, and the row of a key
    counts the page views stored under it. *)
Lemma sessions_count_views_in_every_history (calls : list call) :
  session_invariant (w_store (run_calls calls empty_world)).
Proof.
  assert (Hgen : forall w, session_invariant (w_store w) ->
                           session_invariant (w_store (run_calls calls w))).
  { induction calls as [|c calls IH]; intros w Hinv; [done|].
    apply IH. by apply session_invariant_call. }
  apply Hgen. intros sid. by left.
Qed.

(** X3. No call of a history of page views, conversions, daily reports
    and popular-pages reports keeps a handle: the number of open handles
    after the history is the number before it, whichever calls failed. *)
Lemma handles_are_released_in_every_history (calls : list call) (w : world) :
  w_open (run_calls calls w) = w_open w.
Proof.
  revert w. induction calls as [|c calls IH]; intros w; [done|].
  cbn [run_calls foldl]. change (w_open (run_calls calls (run_call c w)) = w_open w).
  rewrite IH.
  destruct c; cbn [run_call].
  - apply track_page_view_handles.
  - apply track_conversion_handles.
  - apply get_daily_report_handles.
  - apply get_popular_pages_handles.
Qed.


End InvariantKept.

(** ** The pages left out of the top list *)

Lemma group_count_has_key {A : Type} (key : A -> option string) (rows : list A)
    (k : option string) :
  k ∈ key <$> rows ->
  (k, length (filter (fun r => key r = k) rows)) ∈ group_count key rows.
Proof.
  intros Hk. unfold group_count.
  apply list_elem_of_fmap. exists k. split; [done|]. by apply elem_of_remove_dups.
Qed.

(** A url viewed on the day is in the top list, or the list is full and
    every entry of it has at least as many views. *)
Lemma top_pages_query_complete (d : string) (s : db) (u : option string) :
  u ∈ pv_page_url <$> views_on d s ->
  u ∈ (top_pages_query d s).*1
  \/ (length (top_pages_query d s) = 10
      /\ forall p, p ∈ top_pages_query d s ->
           length (filter (fun r => pv_page_url r = u) (views_on d s)) <= p.2).
Proof.
  intros Hu%group_count_has_key. unfold top_pages_query.
  set (sorted := order_by_desc snd (group_count pv_page_url (views_on d s))).
  assert (Hsorted : StronglySorted (count_desc snd) (take 10 sorted ++ drop 10 sorted))
    by (rewrite take_drop; apply order_by_desc_sorted).
  rewrite <- (order_by_desc_perm snd) in Hu. fold sorted in Hu.
  rewrite <- (take_drop 10 sorted) in Hu.
  apply elem_of_app in Hu as [Hu|Hu].
  - left. apply list_elem_of_fmap. by exists (u, length (filter (fun r => pv_page_url r = u) (views_on d s))).
  - right. split.
    + rewrite length_take. destruct (decide (10 <= length sorted)); [lia|].
      rewrite drop_ge in Hu by lia. by apply elem_of_nil in Hu.
    + intros p Hp.
      by apply (StronglySorted_app_1_elem_of _ _ _ _ _ Hsorted Hp Hu).
Qed.

(** ** Conversions that were recorded *)

Section Conversions.
Context `{PyRuntime}.


End Conversions.

(* ===================================================================== *)
(** * Further properties of the tracker *)
(* ===================================================================== *)

Section AllOrNothing.
Context `{PyRuntime}.

(** X2. A call of [track_page_view] that opens the store returns normally
    and is all or nothing: either the store is the one it found and one
    error record was logged, or the page view row was appended, the session
    of its key was upserted and one info record was logged.  No call leaves
    a page view without its session update, or the other way round. *)
Theorem track_page_view_is_all_or_nothing (e : env) (data : gmap string pyval)
    (w : world) :
  e_connect_fails e = false ->
  (track_page_view e data w).1 = Returned tt
  /\ ((w_store (track_page_view e data w).2 = w_store w
       /\ exists ex,
            w_log (track_page_view e data w).2
            = (w_log w ++ [LogError "Error tracking page view: " ex])%list)
      \/ (page_views (w_store (track_page_view e data w).2)
          = (page_views (w_store w)
             ++ [recorded_page_view e data (S (seq_page_views (w_store w)))])%list
          /\ sessions (w_store (track_page_view e data w).2)
             = upsert_session (new_session e data) (isoformat (e_now e 2))
                              (sessions (w_store w))
          /\ conversions (w_store (track_page_view e data w).2)
             = conversions (w_store w)
          /\ exists path,
               w_log (track_page_view e data w).2
               = (w_log w ++ [LogInfo "Page view tracked: " (PStr path)])%list)).
Proof.
  intros Hc. rewrite track_page_view_cases by done.
  destruct (page_view_body e data (w_store w)) as [ex|[s' path]] eqn:Hbody.
  - split; [done|]. left. split; [done|]. by exists ex.
  - apply page_view_body_inr in Hbody as ->.
    split; [done|]. right. repeat split. by exists path.
Qed.

(** X4. Reporting and exporting never change the store: after
    [get_daily_report], [get_popular_pages] and [export_data], whatever
    fails during the call, the three tables are the ones the call found. *)
Theorem reports_leave_the_store_unchanged :
  (forall e date w, w_store (get_daily_report e date w).2 = w_store w)
  /\ (forall e days limit w, w_store (get_popular_pages e days limit w).2 = w_store w)
  /\ (forall e e_report e_pages format w,
        w_store (export_data e e_report e_pages format w).2 = w_store w).
Proof.
  split; [apply get_daily_report_store|]. split; [apply get_popular_pages_store|].
  intros e e_report e_pages format w. unfold export_data.
  destruct (e_connect_fails e); [done|].
  pose proof (get_daily_report_store e_report None (open_handle w)) as Hrep.
  destruct (get_daily_report e_report None (open_handle w)) as [[summary|ex] w2];
    cbn [snd] in Hrep; [|done].
  pose proof (get_popular_pages_store e_pages 30 20 w2) as Hpages.
  destruct (get_popular_pages e_pages 30 20 w2) as [[pages|ex] w3];
    cbn [snd] in *; by rewrite Hpages, Hrep.
Qed.

End AllOrNothing.

(** The theorem on a view of the scenario whose commit fails. *)
Lemma track_page_view_is_all_or_nothing_witness :
  (track_page_view (H := sample_runtime)
     (mk_env false (fun _ => false) true (jan5 10 0 0) jan5_local)
     (view_of "s1" "/a") scenario_world).1 = Returned tt.
Proof.
  exact (proj1 (track_page_view_is_all_or_nothing (H := sample_runtime)
                  (mk_env false (fun _ => false) true (jan5 10 0 0) jan5_local)
                  (view_of "s1" "/a") scenario_world eq_refl)).
Defined.

(** ** Referrers *)

Lemma referrers_query_spec (d : string) (s : db) :
  length (referrers_query d s) <= 10
  /\ StronglySorted (count_desc snd) (referrers_query d s)
  /\ NoDup (referrers_query d s).*1
  /\ (forall r n, (r, n) ∈ referrers_query d s ->
        (exists t, r = Some t /\ t <> "")
        /\ n = length (filter (fun v => pv_referrer v = r) (views_on d s))
        /\ 0 < n).
Proof.
  unfold referrers_query.
  set (rows := filter has_referrer (views_on d s)).
  set (sorted := order_by_desc snd (group_count pv_referrer rows)).
  split; [rewrite length_take; lia|].
  split; [apply StronglySorted_take, order_by_desc_sorted|].
  split.
  - assert (Hsub : (take 10 sorted).*1 `sublist_of` sorted.*1)
      by (apply fmap_sublist, sublist_take).
    refine (sublist_NoDup _ _ _ Hsub). unfold sorted.
    rewrite order_by_desc_perm, group_count_keys. apply NoDup_remove_dups.
  - intros r n Hrn. apply subseteq_take in Hrn. unfold sorted in Hrn.
    rewrite order_by_desc_perm in Hrn.
    pose proof Hrn as Hkey.
    apply group_count_elem in Hrn as [-> Hpos].
    unfold group_count in Hkey.
    apply list_elem_of_fmap in Hkey as (k & Hk & Hin). injection Hk as <- _.
    apply elem_of_remove_dups, list_elem_of_fmap in Hin as (v & -> & Hv).
    apply list_elem_of_filter in Hv as [Href _].
    assert (Hshape : exists t, pv_referrer v = Some t /\ t <> "").
    { unfold has_referrer in Href. destruct (pv_referrer v) as [t|]; [|done].
      by exists t. }
    split; [done|]. split; [|done].
    f_equal. unfold rows. rewrite list_filter_filter.
    apply list_filter_iff. intros v'. split; [tauto|]. intros Hv'. split; [done|].
    unfold has_referrer. rewrite Hv'. destruct Hshape as (t & -> & Ht). done.
Qed.

Lemma run_daily_referrers (e : env) (d : string) (s : db) :
  r_referrers (run_queries e 0 (daily_queries d s) (default_report d)).1 = []
  \/ r_referrers (run_queries e 0 (daily_queries d s) (default_report d)).1
     = referrers_query d s.
Proof.
  cbn. destruct (e_exec_fails e 0); [by left|].
  destruct (e_exec_fails e 1); [by left|].
  destruct (e_exec_fails e 2); [by left|].
  destruct (e_exec_fails e 3); [by left|].
  destruct (e_exec_fails e 4); by right.
Qed.

(** X5. The referrers list of a daily report has at most ten entries, is
    sorted by visits in descending order and has one entry per referrer;
    no entry has a NULL or empty referrer, and each gives the number of
    page views of the day that came from its referrer. *)
Theorem referrers_sorted_and_without_blanks (e : env) (date : option string)
    (w w' : world) (rep : report) :
  get_daily_report e date w = (Returned rep, w') ->
  length (r_referrers rep) <= 10
  /\ StronglySorted (count_desc snd) (r_referrers rep)
  /\ NoDup (r_referrers rep).*1
  /\ (forall r n, (r, n) ∈ r_referrers rep ->
        (exists t, r = Some t /\ t <> "")
        /\ n = length (filter (fun v => pv_referrer v = r)
                              (views_on (report_date e date) (w_store w)))
        /\ 0 < n).
Proof.
  intros Hrep.
  destruct (e_connect_fails e) eqn:Hc.
  { by rewrite get_daily_report_connect_failure in Hrep. }
  rewrite get_daily_report_cases in Hrep by done. cbv zeta in Hrep.
  assert (Hrun : rep = (run_queries e 0
                          (daily_queries (report_date e date) (w_store w))
                          (default_report (report_date e date))).1)
    by (by injection Hrep).
  clear Hrep. subst rep.
  destruct (run_daily_referrers e (report_date e date) (w_store w)) as [-> | ->].
  - split; [cbn; lia|]. split; [constructor|]. split; [constructor|].
    intros r n Hin. by apply elem_of_nil in Hin.
  - apply referrers_query_spec.
Qed.

(** The theorem on a day with five views: two from one site, one from
    another, one without referrer and one with the referrer None. *)
Lemma referrers_sorted_and_without_blanks_witness :
  exists rep,
    (get_daily_report (no_faults (jan5 0 0 0) jan5_local) (Some "2024-01-05")
       referred_world).1 = Returned rep
    /\ r_referrers rep
       = [(Some "https://a.example/", 2); (Some "https://b.example/", 1)]
    /\ StronglySorted (count_desc snd) (r_referrers rep)
    /\ NoDup (r_referrers rep).*1
    /\ (forall r n, (r, n) ∈ r_referrers rep ->
          (exists t, r = Some t /\ t <> "") /\ 0 < n).
Proof.
  pose (e := no_faults (jan5 0 0 0) jan5_local).
  assert (Hrep : get_daily_report e (Some "2024-01-05") referred_world
                 = (Returned (full_report "2024-01-05" (w_store referred_world)),
                    referred_world))
    by (by apply get_daily_report_full).
  destruct (referrers_sorted_and_without_blanks e _ _ _ _ Hrep)
    as (_ & Hsorted & Hnodup & Hentries).
  exists (full_report "2024-01-05" (w_store referred_world)).
  split; [unfold e in Hrep; by rewrite Hrep|]. split; [vm_compute; reflexivity|].
  split; [done|]. split; [done|].
  intros r n Hrn. destruct (Hentries r n Hrn) as (Hr & _ & Hn). by split.
Defined.

(** ** Popular pages *)

Lemma sql_limit_sorted {A : Type} (R : relation A) (n : Z) (l : list A) :
  StronglySorted R l -> StronglySorted R (sql_limit n l).
Proof.
  unfold sql_limit. destruct (n <? 0)%Z; [done|]. apply StronglySorted_take.
Qed.

Lemma sql_limit_sublist {A : Type} (n : Z) (l : list A) : sql_limit n l `sublist_of` l.
Proof. unfold sql_limit. destruct (n <? 0)%Z; [done|apply sublist_take]. Qed.

Lemma sql_limit_length {A : Type} (n : Z) (l : list A) :
  (0 <= n)%Z -> length (sql_limit n l) <= Z.to_nat n.
Proof.
  intros Hn. unfold sql_limit.
  destruct (n <? 0)%Z eqn:Hneg; [lia|]. rewrite length_take. lia.
Qed.

Lemma fmap_section {A B : Type} (f : A -> B) (g : B -> A) (l : list A) :
  (forall a, g (f a) = a) -> g <$> (f <$> l) = l.
Proof.
  intros Hgf. induction l as [|a l IH]; [done|].
  by rewrite !fmap_cons, Hgf, IH.
Qed.

Lemma popular_pages_query_spec (cutoff : string) (limit : Z) (s : db) :
  StronglySorted (count_desc pp_total_views) (popular_pages_query cutoff limit s)
  /\ NoDup (pp_page_url <$> popular_pages_query cutoff limit s)
  /\ ((0 <= limit)%Z ->
      length (popular_pages_query cutoff limit s) <= Z.to_nat limit)
  /\ (forall p, p ∈ popular_pages_query cutoff limit s ->
        pp_total_views p
        = length (filter (fun r => pv_page_url r = pp_page_url p) (views_since cutoff s))
        /\ 0 < pp_total_views p).
Proof.
  unfold popular_pages_query. cbv zeta.
  set (rows := views_since cutoff s).
  set (groups := (fun u => mk_popular_page u
                    (length (filter (fun r => pv_page_url r = u) rows))
                    (count_distinct
                       (pv_session_id <$> filter (fun r => pv_page_url r = u) rows)))
                 <$> remove_dups (pv_page_url <$> rows)).
  split; [apply sql_limit_sorted, order_by_desc_sorted|].
  split.
  - assert (Hsub : pp_page_url <$> sql_limit limit (order_by_desc pp_total_views groups)
                   `sublist_of` pp_page_url <$> order_by_desc pp_total_views groups)
      by apply fmap_sublist, sql_limit_sublist.
    refine (sublist_NoDup _ _ _ Hsub).
    rewrite order_by_desc_perm.
    unfold groups. rewrite fmap_section by done. apply NoDup_remove_dups.
  - split; [apply sql_limit_length|].
    intros p Hp. apply sql_limit_subseteq in Hp. rewrite order_by_desc_perm in Hp.
    unfold groups in Hp. apply list_elem_of_fmap in Hp as (u & -> & Hu).
    cbn [pp_total_views pp_page_url]. split; [done|].
    apply elem_of_remove_dups, list_elem_of_fmap in Hu as (r & -> & Hr).
    assert (r ∈ filter (fun r' => pv_page_url r' = pv_page_url r) rows) as Hin
      by (by apply list_elem_of_filter).
    destruct (filter _ rows); [by apply elem_of_nil in Hin|cbn; lia].
Qed.

Section PopularPages.
Context `{PyRuntime}.

(** X6. The list [get_popular_pages] returns is sorted by total_views in
    descending order and has one entry per url; with a limit that is not
    negative it has at most that many entries; and when it is not empty
    every entry gives the number of page views of its url since the
    cutoff date, at least one. *)
Theorem popular_pages_sorted_and_limited (e : env) (days limit : Z) (w w' : world)
    (pages : list popular_page) :
  get_popular_pages e days limit w = (Returned pages, w') ->
  StronglySorted (count_desc pp_total_views) pages
  /\ NoDup (pp_page_url <$> pages)
  /\ ((0 <= limit)%Z -> length pages <= Z.to_nat limit)
  /\ (forall p, p ∈ pages ->
        exists cutoff,
          cutoff_date (e_now e 0) days = inr cutoff
          /\ pp_total_views p
             = length (filter (fun r => pv_page_url r = pp_page_url p)
                              (views_since cutoff (w_store w)))
          /\ 0 < pp_total_views p).
Proof.
  intros Hpages.
  destruct (e_connect_fails e) eqn:Hc.
  { by rewrite get_popular_pages_connect_failure in Hpages. }
  rewrite get_popular_pages_cases in Hpages by done.
  destruct (popular_pages_body e days limit (w_store w)) as [ex|pages'] eqn:Hbody.
  - injection Hpages as <- _.
    split; [constructor|]. split; [constructor|]. split; [cbn; lia|].
    intros p Hp. by apply elem_of_nil in Hp.
  - injection Hpages as <- _. unfold popular_pages_body in Hbody.
    apply bind_inr in Hbody as (cutoff & Hcut & Hbody).
    apply bind_inr in Hbody as (lim & _ & Hbody).
    apply bind_inr in Hbody as (u & _ & Hbody). injection Hbody as <-.
    destruct (popular_pages_query_spec cutoff limit (w_store w))
      as (Hsorted & Hnodup & Hlen & Hcount).
    split; [done|]. split; [done|]. split; [done|].
    intros p Hp. exists cutoff. split; [done|]. by apply Hcount.
Qed.

End PopularPages.

(** The theorem on the popular pages of the scenario, limit 1. *)
Lemma popular_pages_sorted_and_limited_witness :
  exists pages,
    (get_popular_pages (H := sample_runtime) (no_faults (jan5 0 0 0) jan5_local)
       0 1 scenario_world).1 = Returned pages
    /\ length pages <= 1.
Proof.
  pose (e := no_faults (jan5 0 0 0) jan5_local).
  destruct (get_popular_pages (H := sample_runtime) e 0 1 scenario_world)
    as [out w'] eqn:Hcall.
  assert (Hout : exists pages, out = Returned pages)
    by (vm_compute in Hcall; injection Hcall as <- _; eauto).
  destruct Hout as [pages ->]. exists pages.
  split; [unfold e in Hcall; by rewrite Hcall|].
  destruct (popular_pages_sorted_and_limited (H := sample_runtime) e 0 1
              scenario_world w' pages Hcall) as (_ & _ & Hlen & _).
  apply Hlen. lia.
Defined.

(** X7. In a daily report whose queries all ran, the top list holds the
    most viewed urls of the day: a url that was viewed that day and is not
    listed has no more views than any listed one, and the list is then
    full. *)
Theorem top_pages_are_the_most_viewed (e : env) (date : option string)
    (w w' : world) (rep : report) (u : option string) :
  get_daily_report e date w = (Returned rep, w') ->
  (forall k, k < 5 -> e_exec_fails e k = false) ->
  u ∈ pv_page_url <$> views_on (report_date e date) (w_store w) ->
  u ∈ (r_top_pages rep).*1
  \/ (length (r_top_pages rep) = 10
      /\ forall p, p ∈ r_top_pages rep ->
           length (filter (fun r => pv_page_url r = u)
                          (views_on (report_date e date) (w_store w))) <= p.2).
Proof.
  intros Hrep Hok Hu.
  destruct (e_connect_fails e) eqn:Hc.
  { by rewrite get_daily_report_connect_failure in Hrep. }
  rewrite get_daily_report_full in Hrep by done.
  injection Hrep as <- _. cbn [r_top_pages full_report].
  by apply top_pages_query_complete.
Qed.

(** The theorem on the scenario and its url "/b". *)
Lemma top_pages_are_the_most_viewed_witness :
  Some "/b" ∈ (r_top_pages (full_report "2024-01-05" (w_store scenario_world))).*1
  \/ (length (r_top_pages (full_report "2024-01-05" (w_store scenario_world))) = 10
      /\ forall p, p ∈ r_top_pages (full_report "2024-01-05" (w_store scenario_world)) ->
           length (filter (fun r => pv_page_url r = Some "/b")
                          (views_on "2024-01-05" (w_store scenario_world))) <= p.2).
Proof.
  pose (e := no_faults (jan5 0 0 0) jan5_local).
  assert (Hrep : get_daily_report e (Some "2024-01-05") scenario_world
                 = (Returned (full_report "2024-01-05" (w_store scenario_world)),
                    scenario_world))
    by (by apply get_daily_report_full).
  apply (top_pages_are_the_most_viewed e (Some "2024-01-05") scenario_world
           scenario_world _ (Some "/b") Hrep); [done|].
  vm_compute. apply list_elem_of_In. cbn. tauto.
Defined.

(** ** Recording, then reporting *)



Section RecordThenReport.
Context `{PyRuntime}.






End RecordThenReport.




(** ** More of the tabular export *)

Lemma head_omap_skip {A B : Type} (f : A -> option B) (l rest : list A) (x : A) (v : B) :
  Forall (fun a => f a = None) l -> f x = Some v ->
  head (omap f (List.app l (x :: rest))) = Some v.
Proof.
  intros Hl Hx. induction Hl as [|a l Ha _ IH]; cbn.
  - by rewrite Hx.
  - by rewrite Ha.
Qed.

(** The other three metric rows of an export read back as well. *)
Lemma read_other_metrics (data : export_payload) :
  single_line (x_export_date data) = true ->
  read_metric "Unique Visitors" (String.concat newline (csv_lines data))
    = Some (r_unique_visitors (x_summary data))
  /\ read_metric "Page Views" (String.concat newline (csv_lines data))
     = Some (r_page_views (x_summary data))
  /\ read_metric "Conversions" (String.concat newline (csv_lines data))
     = Some (r_conversions (x_summary data)).
Proof.
  intros Hdate.
  assert (Hsplit :
    exists rest,
      split_on "010"%char (String.concat newline (csv_lines data)) =
        List.app
          [ "Metric,Value";
            "Export Date," ++ x_export_date data;
            "Total Visits," ++ dec (r_total_visits (x_summary data));
            "Unique Visitors," ++ dec (r_unique_visitors (x_summary data));
            "Page Views," ++ dec (r_page_views (x_summary data)) ]
          (("Conversions," ++ dec (r_conversions (x_summary data))) :: rest)).
  { unfold csv_lines. cbn [app]. rewrite !concat_cons.
    rewrite (split_on_line "Metric,Value") by reflexivity.
    rewrite (split_on_line ("Export Date," ++ x_export_date data))
      by (by rewrite single_line_app, Hdate).
    rewrite (split_on_line ("Total Visits," ++ _))
      by (by rewrite single_line_app, single_line_dec).
    rewrite (split_on_line ("Unique Visitors," ++ _))
      by (by rewrite single_line_app, single_line_dec).
    rewrite (split_on_line ("Page Views," ++ _))
      by (by rewrite single_line_app, single_line_dec).
    rewrite (split_on_line ("Conversions," ++ _))
      by (by rewrite single_line_app, single_line_dec).
    eexists. reflexivity. }
  destruct Hsplit as [rest Hsplit]. unfold read_metric. rewrite Hsplit.
  split; [|split].
  - change (List.app ?l (?x :: rest))
      with (List.app [ "Metric,Value"; "Export Date," ++ x_export_date data;
                       "Total Visits," ++ dec (r_total_visits (x_summary data)) ]
              (("Unique Visitors," ++ dec (r_unique_visitors (x_summary data)))
                 :: ("Page Views," ++ dec (r_page_views (x_summary data)))
                 :: ("Conversions," ++ dec (r_conversions (x_summary data)))
                 :: rest)).
    erewrite head_omap_skip;
      [|by repeat constructor
       |change ("Unique Visitors" ++ ",") with "Unique Visitors,";
        apply strip_prefix_app].
    apply parse_nat_dec.
  - change (List.app ?l (?x :: rest))
      with (List.app [ "Metric,Value"; "Export Date," ++ x_export_date data;
                       "Total Visits," ++ dec (r_total_visits (x_summary data));
                       "Unique Visitors," ++ dec (r_unique_visitors (x_summary data)) ]
              (("Page Views," ++ dec (r_page_views (x_summary data)))
                 :: ("Conversions," ++ dec (r_conversions (x_summary data)))
                 :: rest)).
    erewrite head_omap_skip;
      [|by repeat constructor
       |change ("Page Views" ++ ",") with "Page Views,"; apply strip_prefix_app].
    apply parse_nat_dec.
  - erewrite head_omap_skip;
      [|by repeat constructor
       |change ("Conversions" ++ ",") with "Conversions,"; apply strip_prefix_app].
    apply parse_nat_dec.
Qed.

Section OtherMetrics.
Context `{PyRuntime}.

(** X11. From every export in the csv format, the rows "Unique Visitors",
    "Page Views" and "Conversions" read back to the unique_visitors,
    page_views and conversions of the daily report that was exported,
    whatever the urls of the popular pages that follow them. *)
Theorem tabular_export_reads_back_every_metric (e e_report e_pages : env)
    (format : string) (w w' : world) (out : export_text) :
  export_data e e_report e_pages format w = (Returned out, w') ->
  lower format = "csv" ->
  exists text summary,
    out = CsvText text
    /\ (get_daily_report e_report None (open_handle w)).1 = Returned summary
    /\ read_metric "Unique Visitors" text = Some (r_unique_visitors summary)
    /\ read_metric "Page Views" text = Some (r_page_views summary)
    /\ read_metric "Conversions" text = Some (r_conversions summary).
Proof.
  intros Hexport Hcsv. unfold export_data in Hexport.
  destruct (e_connect_fails e); [discriminate|].
  destruct (get_daily_report e_report None (open_handle w)) as [[summary|ex] w2];
    [|discriminate].
  destruct (get_popular_pages e_pages 30 20 w2) as [[pages|ex] w3]; [|discriminate].
  injection Hexport as <- _.
  exists (String.concat newline
            (csv_lines (mk_export_payload (isoformat (e_now e 0)) summary pages))),
         summary.
  split; [unfold render_export; by rewrite Hcsv|]. split; [done|].
  apply (read_other_metrics (mk_export_payload (isoformat (e_now e 0)) summary pages)).
  apply single_line_isoformat.
Qed.

End OtherMetrics.

(** The theorem on an export of the scenario: one unique visitor. *)
Lemma tabular_export_reads_back_every_metric_witness :
  exists text,
    (export_data (H := sample_runtime)
       (no_faults (jan5 0 0 0) jan5_local) (no_faults (jan5 0 0 0) jan5_local)
       (no_faults (jan5 0 0 0) jan5_local) "csv" scenario_world).1
    = Returned (CsvText text)
    /\ read_metric "Unique Visitors" text = Some 1.
Proof.
  pose (e := no_faults (jan5 0 0 0) jan5_local).
  destruct (export_data (H := sample_runtime) e e e "csv" scenario_world)
    as [out w'] eqn:Hexport.
  assert (Hout : exists out', out = Returned out')
    by (vm_compute in Hexport; injection Hexport as <- _; eauto).
  destruct Hout as [out' ->].
  destruct (tabular_export_reads_back_every_metric (H := sample_runtime) e e e "csv"
              scenario_world w' out' Hexport eq_refl)
    as (text & summary & -> & Hsummary & Hread & _).
  exists text. split; [unfold e in Hexport; by rewrite Hexport|].
  rewrite Hread. f_equal.
  assert (Hrep : Returned summary
                 = Returned (mk_report "2024-01-05" 4 1 4
                               [(Some "/a", 3); (Some "/b", 1)] [] 0))
    by (rewrite <- Hsummary; vm_compute; reflexivity).
  by injection Hrep as ->.
Defined.

(** ** The rows of the popular pages *)

Lemma count_char_app (c : ascii) (a b : string) :
  count_char c (a ++ b) = count_char c a + count_char c b.
Proof.
  induction a as [|x a IH]; [done|].
  rewrite append_String. cbn. rewrite IH. lia.
Qed.

Lemma count_comma_uint (d : Decimal.uint) :
  count_char ","%char (NilEmpty.string_of_uint d) = 0.
Proof. induction d; cbn; auto. Qed.

Lemma count_comma_dec (n : nat) : count_char ","%char (dec n) = 0.
Proof. apply count_comma_uint. Qed.

Lemma length_split_on (c : ascii) (s : string) :
  length (split_on c s) = S (count_char c s).
Proof.
  induction s as [|a s IH]; [done|]. cbn.
  destruct (Ascii.eqb a c); cbn; [by rewrite IH|].
  destruct (split_on c s) as [|l ls]; cbn in *; lia.
Qed.

Lemma split_on_none (c : ascii) (s : string) :
  count_char c s = 0 -> split_on c s = [s].
Proof.
  induction s as [|a s IH]; [done|]. cbn.
  destruct (Ascii.eqb a c); [discriminate|]. cbn. intros Hs. by rewrite IH.
Qed.

Lemma split_on_cell (c : ascii) (a b : string) :
  count_char c a = 0 ->
  split_on c (a ++ String c b) = a :: split_on c b.
Proof.
  induction a as [|x a IH].
  - intros _. rewrite append_empty. cbn. by rewrite Ascii.eqb_refl.
  - rewrite append_String. cbn.
    destruct (Ascii.eqb x c); [discriminate|]. cbn. intros Ha. by rewrite IH.
Qed.

(** X12. The row of a popular page in the csv export is written without
    escaping.  Split at the commas it has three cells plus one for every
    comma of the url; when the url has no comma its cells are the url,
    the views and the unique visitors, and the two numbers read back. *)
Theorem csv_page_row_is_not_escaped (p : popular_page) :
  length (split_on ","%char (csv_page_row p))
  = 3 + count_char ","%char (py_text (pp_page_url p))
  /\ (count_char ","%char (py_text (pp_page_url p)) = 0 ->
      split_on ","%char (csv_page_row p)
      = [py_text (pp_page_url p); dec (pp_total_views p); dec (pp_unique_visitors p)]
      /\ parse_nat (dec (pp_total_views p)) = Some (pp_total_views p)
      /\ parse_nat (dec (pp_unique_visitors p)) = Some (pp_unique_visitors p)).
Proof.
  unfold csv_page_row.
  assert (Hsep : forall r, "," ++ r = String ","%char r) by reflexivity.
  rewrite !Hsep.
  split.
  - rewrite length_split_on, count_char_app. cbn [count_char].
    rewrite count_char_app. cbn [count_char].
    rewrite !count_comma_dec. cbn. lia.
  - intros Hurl. split; [|split; apply parse_nat_dec].
    rewrite split_on_cell by done.
    rewrite split_on_cell by apply count_comma_dec.
    by rewrite split_on_none by apply count_comma_dec.
Qed.

(** The theorem on the row of "/a" in the scenario. *)
Lemma csv_page_row_is_not_escaped_witness :
  split_on ","%char (csv_page_row (mk_popular_page (Some "/a") 3 1)) = ["/a"; "3"; "1"].
Proof.
  destruct (csv_page_row_is_not_escaped (mk_popular_page (Some "/a") 3 1))
    as [_ Hcells].
  destruct (Hcells eq_refl) as [Hsplit _]. exact Hsplit.
Defined.

(** ** Total views over all sessions *)

Lemma sum_touched (k : string) (t : string) (ss : list session) :
  sum_list_with ss_total_views
    ((fun r => if bool_decide (ss_session_id r = Some k)
               then touch_session t r else r) <$> ss)
  = sum_list_with ss_total_views ss
    + length (filter (fun r => ss_session_id r = Some k) ss).
Proof.
  induction ss as [|r ss IH]; [done|]. rewrite fmap_cons. cbn [sum_list_with].
  rewrite IH. destruct (decide (ss_session_id r = Some k)) as [Hr|Hr].
  - rewrite bool_decide_true, filter_cons_True by done. cbn. lia.
  - rewrite bool_decide_false, filter_cons_False by done. lia.
Qed.

Lemma sum_upsert (row : session) (t : string) (s : db) :
  session_invariant s -> ss_total_views row = 1 ->
  sum_list_with ss_total_views (upsert_session row t (sessions s))
  = S (sum_list_with ss_total_views (sessions s)).
Proof.
  intros Hinv Hone. unfold upsert_session.
  assert (Happ : sum_list_with ss_total_views (sessions s ++ [row])%list
                 = S (sum_list_with ss_total_views (sessions s))).
  { rewrite sum_list_with_app. cbn. lia. }
  destruct (ss_session_id row) as [k|]; [|done].
  case_bool_decide as Hin; [|done].
  rewrite sum_touched.
  destruct (Hinv k) as [[Hnone _]|(r & Hrow & _)].
  - apply session_rows_nil_iff in Hnone. done.
  - unfold session_rows in Hrow. rewrite Hrow. cbn. lia.
Qed.

Section TotalViews.
Context `{PyRuntime}.

Lemma total_views_call (c : call) (w : world) :
  session_invariant (w_store w) ->
  sum_list_with ss_total_views (sessions (w_store w))
    = length (page_views (w_store w)) ->
  sum_list_with ss_total_views (sessions (w_store (run_call c w)))
  = length (page_views (w_store (run_call c w))).
Proof.
  intros Hinv Hsum.
  destruct c as [e data|e sid ctype value form|e date|e days limit]; cbn [run_call].
  - destruct (e_connect_fails e) eqn:Hc.
    { by rewrite track_page_view_connect_failure. }
    rewrite track_page_view_cases by done.
    destruct (page_view_body e data (w_store w)) as [ex|[s' path]] eqn:Hbody; [done|].
    apply page_view_body_inr in Hbody as ->.
    cbn [snd w_store add_log set_store sessions page_views].
    rewrite sum_upsert by done. rewrite length_app. cbn. lia.
  - destruct (e_connect_fails e) eqn:Hc.
    { unfold track_conversion. by rewrite Hc. }
    rewrite track_conversion_cases by done.
    destruct (conversion_body e sid ctype value form (w_store w)) as [ex|s'] eqn:Hbody;
      [done|].
    apply conversion_body_inr in Hbody as (Hv & Hs & _).
    cbn [snd w_store add_log set_store]. by rewrite Hv, Hs.
  - by rewrite get_daily_report_store.
  - by rewrite get_popular_pages_store.
Qed.

(** X13. Whatever the history of calls on a fresh store, the total_views
    of all sessions rows add up to the number of page views stored: every
    stored view was counted in exactly one session, also the views
    without session id and the ones recorded between failed calls. *)
Theorem total_views_add_up_to_the_page_views (calls : list call) :
  sum_list_with ss_total_views (sessions (w_store (run_calls calls empty_world)))
  = length (page_views (w_store (run_calls calls empty_world))).
Proof.
  assert (Hgen : forall w,
            session_invariant (w_store w) ->
            sum_list_with ss_total_views (sessions (w_store w))
              = length (page_views (w_store w)) ->
            sum_list_with ss_total_views (sessions (w_store (run_calls calls w)))
              = length (page_views (w_store (run_calls calls w)))).
  { induction calls as [|c calls IH]; intros w Hinv Hsum; [done|].
    apply IH; [by apply session_invariant_call|by apply total_views_call]. }
  apply Hgen; [|done]. intros sid. by left.
Qed.

End TotalViews.

(* ===================================================================== *)
(** * Properties of the web application *)
(* ===================================================================== *)

(** ** The payload of the helper *)

Lemma app_payload_bindable (rq : request) (page_name : string) :
  payload_bindable (App.page_view_payload rq page_name) = true.
Proof. destruct rq as [url cookies ref ua [addr|] body form]; reflexivity. Qed.

Lemma app_payload_session_key (rq : request) (page_name : string) :
  session_key (App.page_view_payload rq page_name)
  = Some (default "unknown" (rq_cookies rq !! "session_id")).
Proof. reflexivity. Qed.

Lemma app_payload_url (rq : request) (page_name : string) :
  py_get (App.page_view_payload rq page_name) "page_url" (PStr "") = PStr (rq_url rq).
Proof. reflexivity. Qed.

Lemma service_file_not_empty (service_name html_file : string) :
  App.service_file service_name = Some html_file -> String.eqb html_file "" = false.
Proof.
  unfold App.service_file, App.service_map. cbn [List.find fst snd].
  repeat (destruct (String.eqb _ service_name); [by intros [= <-]|]).
  discriminate.
Qed.

Section Application.
Context `{PyRuntime}.

(** A view that goes through the helper is recorded as soon as the store
    answers and the url of the request parses. *)
Lemma app_payload_recordable (e : env) (rq : request) (page_name : string) :
  quiet e = true -> succeeds (urlparse_path (PStr (rq_url rq))) = true ->
  recordable e (App.page_view_payload rq page_name) = true.
Proof.
  intros Hq Hu. unfold recordable.
  by rewrite Hq, app_payload_bindable, app_payload_url, Hu.
Qed.

Lemma app_visits_as_calls (visits : list (env * request * string)) (w : world) :
  foldl (fun w v => (App.track_page_view v.1.1 v.1.2 v.2 w).2) w visits
  = track_all ((fun v => (v.1.1, App.page_view_payload v.1.2 v.2)) <$> visits) w.
Proof.
  revert w. induction visits as [|v visits IH]; intros w; [done|].
  cbn [foldl fmap list_fmap]. rewrite IH. reflexivity.
Qed.

(** X14. Visitors without a session cookie are all counted under the one
    session id 'unknown': after any number N >= 1 of page views that went
    through the helper of the application without a session_id cookie and
    were recorded, on a store that had no row for 'unknown', the sessions
    table has exactly one row for 'unknown', with total_views = N. *)
Theorem visitors_without_cookie_share_one_session
    (v : env * request * string) (rest : list (env * request * string)) (w : world) :
  Forall (fun v => quiet v.1.1 = true
                   /\ rq_cookies v.1.2 !! "session_id" = None
                   /\ succeeds (urlparse_path (PStr (rq_url v.1.2))) = true)
         (v :: rest) ->
  session_rows "unknown" (w_store w) = [] ->
  exists row,
    session_rows "unknown"
      (w_store (foldl (fun w v => (App.track_page_view v.1.1 v.1.2 v.2 w).2)
                      w (v :: rest))) = [row]
    /\ ss_total_views row = length (v :: rest).
Proof.
  intros Hall Hnone. rewrite app_visits_as_calls.
  assert (Hcalls :
    Forall (fun c => recordable c.1 c.2 = true /\ session_key c.2 = Some "unknown")
           ((fun v => (v.1.1, App.page_view_payload v.1.2 v.2)) <$> (v :: rest))).
  { apply Forall_fmap. eapply Forall_impl; [exact Hall|].
    intros [[e rq] name] (Hq & Hcookie & Hu). cbn in *. split.
    - by apply app_payload_recordable.
    - by rewrite app_payload_session_key, Hcookie. }
  rewrite fmap_cons in Hcalls. apply Forall_cons in Hcalls as [[Hr Hk] Hrest].
  rewrite fmap_cons, track_all_cons.
  pose proof (session_rows_recorded "unknown" _ _ w Hr Hk) as Hstep.
  rewrite Hnone in Hstep.
  destruct (later_views "unknown" _ _ _ Hrest Hstep) as (row & Hrow & Hviews & _).
  exists row. split; [done|]. rewrite Hviews, length_fmap. cbn. lia.
Qed.

(** X15. The tracking endpoint answers success with status 200 exactly
    when the body is an object and the store could be opened, and 400
    otherwise.  So it also answers success when an INSERT or the commit
    failed and the view was rolled back: the store is then the one the
    call found, and the client is not told. *)
Theorem tracking_endpoint_hides_dropped_views (e : env) (rq : request) (st : site)
    (data : gmap string pyval) :
  rq_json rq = JsonObject data ->
  (rs_success (App.api_analytics_track e rq st).1 = negb (e_connect_fails e))
  /\ (rs_status (App.api_analytics_track e rq st).1
      = if e_connect_fails e then 400 else 200)
  /\ (e_connect_fails e = false ->
      e_exec_fails e 0 = true \/ e_exec_fails e 1 = true \/ e_commit_fails e = true ->
      (App.api_analytics_track e rq st).1 = mk_json_response true 200
      /\ w_store (st_world (App.api_analytics_track e rq st).2) = w_store (st_world st)
      /\ st_app_log (App.api_analytics_track e rq st).2 = st_app_log st).
Proof.
  intros Hbody. unfold App.api_analytics_track. rewrite Hbody.
  destruct (e_connect_fails e) eqn:Hc.
  - rewrite track_page_view_connect_failure by done. by repeat split.
  - rewrite track_page_view_cases by done.
    split; [by destruct (page_view_body e data (w_store (st_world st))) as [?|[? ?]]|].
    split; [by destruct (page_view_body e data (w_store (st_world st))) as [?|[? ?]]|].
    intros _ Hf.
    by destruct (page_view_body_fault e data (w_store (st_world st)) Hf) as [ex ->].
Qed.

(** X16. A request for a service page is tracked before the page is
    looked up: when the store answers and the url parses, the route adds
    one row to page_views, titled "Service: " and the name asked for,
    whatever the name; and it answers with the page of the service and
    status 200 when the name is one of the six services and the file of
    its page exists, and with the 404 page and status 404 otherwise. *)
Theorem service_page_tracks_before_lookup (e : env) (file_exists : string -> bool)
    (rq : request) (service_name : string) (w : world) :
  quiet e = true -> succeeds (urlparse_path (PStr (rq_url rq))) = true ->
  exists response w',
    App.service_page e file_exists rq service_name w = (Returned response, w')
    /\ page_views (w_store w')
       = (page_views (w_store w)
          ++ [recorded_page_view e
                (App.page_view_payload rq ("Service: " ++ service_name))
                (S (seq_page_views (w_store w)))])%list
    /\ response =
         match App.service_file service_name with
         | Some html_file =>
             if file_exists html_file then mk_page_response html_file 200
             else mk_page_response "404.html" 404
         | None => mk_page_response "404.html" 404
         end.
Proof.
  intros Hq Hu.
  pose proof (app_payload_recordable e rq ("Service: " ++ service_name) Hq Hu) as Hr.
  pose proof (track_page_view_recorded e _ w Hr) as Hstore.
  unfold App.service_page, App.track_page_view.
  assert (Hc : e_connect_fails e = false) by (by apply quiet_inv).
  destruct (track_page_view e (App.page_view_payload rq ("Service: " ++ service_name)) w)
    as [[u|ex] w'] eqn:Hcall.
  2:{ rewrite track_page_view_cases in Hcall by done.
      by destruct (page_view_body _ _ _) as [?|[? ?]]. }
  cbn [snd] in Hstore.
  destruct (App.service_file service_name) as [html_file|] eqn:Hfile.
  - rewrite (service_file_not_empty _ _ Hfile). cbn [negb andb].
    destruct (file_exists html_file);
      eexists _, w'; (split; [done|]); by rewrite Hstore.
  - eexists _, w'. split; [done|]. by rewrite Hstore.
Qed.

End Application.

(** The theorem on two visitors without cookie. *)
Lemma visitors_without_cookie_share_one_session_witness :
  exists row,
    session_rows "unknown"
      (w_store (foldl (fun w v => (App.track_page_view (H := sample_runtime)
                                     v.1.1 v.1.2 v.2 w).2)
                  empty_world
                  [ (no_faults (jan5 9 0 0) jan5_local,
                     mk_request "/" ∅ None (Some "Firefox") (Some "10.0.0.1") JsonError ∅,
                     "Home");
                    (no_faults (jan5 9 1 0) jan5_local,
                     mk_request "/login" ∅ None (Some "Safari") (Some "10.0.0.2") JsonError ∅,
                     "Login") ])) = [row]
    /\ ss_total_views row = 2.
Proof.
  apply (visitors_without_cookie_share_one_session (H := sample_runtime));
    [|reflexivity].
  repeat constructor.
Defined.

(** The theorem on a view whose commit fails. *)
Lemma tracking_endpoint_hides_dropped_views_witness :
  (App.api_analytics_track (H := sample_runtime)
     (mk_env false (fun _ => false) true (jan5 9 0 0) jan5_local)
     (mk_request "/" ∅ None None None (JsonObject (view_of "s1" "/a")) ∅)
     (mk_site scenario_world [])).1
  = mk_json_response true 200.
Proof.
  destruct (tracking_endpoint_hides_dropped_views (H := sample_runtime)
              (mk_env false (fun _ => false) true (jan5 9 0 0) jan5_local)
              (mk_request "/" ∅ None None None (JsonObject (view_of "s1" "/a")) ∅)
              (mk_site scenario_world []) (view_of "s1" "/a") eq_refl)
    as (_ & _ & Hdropped).
  destruct (Hdropped eq_refl (or_intror (or_intror eq_refl))) as [Hresp _].
  exact Hresp.
Defined.

(** The theorem on a request for a service that does not exist. *)
Lemma service_page_tracks_before_lookup_witness :
  exists w',
    App.service_page (H := sample_runtime) (no_faults (jan5 9 0 0) jan5_local)
      (fun _ => true)
      (mk_request "/services/payroll" ∅ None None None JsonError ∅) "payroll"
      empty_world
    = (Returned (mk_page_response "404.html" 404), w')
    /\ length (page_views (w_store w')) = 1.
Proof.
  destruct (service_page_tracks_before_lookup (H := sample_runtime)
              (no_faults (jan5 9 0 0) jan5_local) (fun _ => true)
              (mk_request "/services/payroll" ∅ None None None JsonError ∅) "payroll"
              empty_world eq_refl eq_refl)
    as (response & w' & Hcall & Hviews & Hresp).
  exists w'. rewrite Hcall, Hresp, Hviews. by split.
Defined.

(* ===================================================================== *)
(** * Properties of the contact form handler *)
(* ===================================================================== *)

Lemma filled_iff (v : option string) :
  filled v = true <-> exists s, v = Some s /\ s <> "".
Proof.
  destruct v as [s|]; cbn.
  - rewrite negb_true_iff, String.eqb_neq. split.
    + intros Hs. by exists s.
    + by intros (s' & [= <-] & Hs).
  - split; [done|]. by intros (s & ? & _).
Qed.

Lemma app_nil_iff {A : Type} (l k : list A) : List.app l k = [] <-> l = [] /\ k = [].
Proof. destruct l; cbn; split; try done; by intros [? ?]. Qed.

Lemma required_error_nil (v : option string) (field : string) :
  (if filled v then [] else [field ++ " is required"]) = @nil string
  <-> filled v = true.
Proof. by destruct (filled v). Qed.

Section Validated.
Context `{PyText}.

Lemma form_errors_nil (f : gmap string (option string)) :
  form_errors f = [] <->
    filled (form_get f "name") = true
    /\ filled (form_get f "email") = true
    /\ filled (form_get f "message") = true
    /\ (forall email, form_get f "email" = Some email -> email <> "" ->
          contains_char "@" email = true)
    /\ (forall phone, form_get f "phone" = Some phone -> phone <> "" ->
          py_isdigit (phone_digits phone) = true).
Proof.
  unfold form_errors. cbn [List.flat_map].
  rewrite !app_nil_iff, !required_error_nil.
  unfold form_get, form_get_default.
  assert (Hemail :
    match default (Some "") (f !! "email") with
    | Some email => if filled (Some email) && negb (contains_char "@" email)
                    then ["Invalid email address"] else []
    | None => []
    end = [] <->
    forall email, mjoin (f !! "email") = Some email -> email <> "" ->
                  contains_char "@" email = true).
  { destruct (f !! "email") as [[email|]|]; cbn.
    - destruct (String.eqb_spec email "") as [->|Hne]; cbn.
      + split; [|done]. by intros _ email [= <-].
      + destruct (contains_char "@" email) eqn:Hat; cbn.
        * split; [|done]. by intros _ email' [= <-].
        * split; [done|]. intros Hall. specialize (Hall email eq_refl Hne). congruence.
    - split; [|done]. by intros _ email.
    - split; [|done]. by intros _ email. }
  assert (Hphone :
    match default (Some "") (f !! "phone") with
    | Some phone => if filled (Some phone) && negb (py_isdigit (phone_digits phone))
                    then [phone_error] else []
    | None => []
    end = [] <->
    forall phone, mjoin (f !! "phone") = Some phone -> phone <> "" ->
                  py_isdigit (phone_digits phone) = true).
  { destruct (f !! "phone") as [[phone|]|]; cbn.
    - destruct (String.eqb_spec phone "") as [->|Hne]; cbn.
      + split; [|done]. by intros _ phone [= <-].
      + destruct (py_isdigit (phone_digits phone)) eqn:Hd; cbn.
        * split; [|done]. by intros _ phone' [= <-].
        * split; [done|]. intros Hall. specialize (Hall phone eq_refl Hne). congruence.
    - split; [|done]. by intros _ phone.
    - split; [|done]. by intros _ phone. }
  rewrite Hemail, Hphone. tauto.
Qed.

(** X17. [validate_form_data] accepts a form exactly when its name, email
    and message are texts that are not empty, the email holds an '@', and
    the phone, when one is given, is made of digits once its blanks,
    dashes and plus signs are removed; and it accepts exactly when it
    returns no error.  Nothing else of the email is examined. *)
Theorem valid_forms_characterised (f : gmap string (option string)) :
  ((validate_form_data f).1 = true <->
     (exists name, form_get f "name" = Some name /\ name <> "")
     /\ (exists email, form_get f "email" = Some email /\ email <> ""
                       /\ contains_char "@" email = true)
     /\ (exists message, form_get f "message" = Some message /\ message <> "")
     /\ (forall phone, form_get f "phone" = Some phone -> phone <> "" ->
           py_isdigit (phone_digits phone) = true))
  /\ ((validate_form_data f).1 = true <-> (validate_form_data f).2 = []).
Proof.
  assert (Hnil : (validate_form_data f).1 = true <-> form_errors f = []).
  { unfold validate_form_data. cbn [fst]. rewrite Nat.eqb_eq.
    destruct (form_errors f); cbn; split; (done || lia). }
  split; [|done]. rewrite Hnil, form_errors_nil, !filled_iff. split.
  - intros (Hname & (email & Hemail & Hne) & Hmessage & Hat & Hphone).
    repeat split; try done. exists email. repeat split; try done. by apply Hat.
  - intros (Hname & (email & Hemail & Hne & Hat) & Hmessage & Hphone).
    repeat split; try done.
    + by exists email.
    + intros email' Hemail' _. congruence.
Qed.

End Validated.

(** ** Phone numbers *)

Lemma string_forall_impl (p q : ascii -> bool) (s : string) :
  (forall c, p c = true -> q c = true) ->
  string_forall p s = true -> string_forall q s = true.
Proof.
  intros Hpq. induction s as [|c s IH]; [done|]. cbn.
  rewrite !andb_true_iff. intros [Hc Hs]. split; [by apply Hpq|by apply IH].
Qed.

Lemma string_exists_impl (p q : ascii -> bool) (s : string) :
  (forall c, p c = true -> q c = true) ->
  string_exists p s = true -> string_exists q s = true.
Proof.
  intros Hpq. induction s as [|c s IH]; [done|]. cbn.
  rewrite !orb_true_iff. intros [Hc|Hs]; [left; by apply Hpq|right; by apply IH].
Qed.

Lemma string_forall_remove (q : ascii -> bool) (c : ascii) (s : string) :
  string_forall (fun a => q a || Ascii.eqb a c) s = true ->
  string_forall q (remove_char c s) = true.
Proof.
  induction s as [|a s IH]; [done|]. cbn.
  rewrite andb_true_iff. intros [Ha Hs].
  destruct (Ascii.eqb a c); [by apply IH|]. cbn.
  rewrite orb_false_r in Ha. by rewrite Ha, IH.
Qed.

Lemma string_exists_remove (q : ascii -> bool) (c : ascii) (s : string) :
  (forall a, q a = true -> Ascii.eqb a c = false) ->
  string_exists q s = true -> string_exists q (remove_char c s) = true.
Proof.
  intros Hq. induction s as [|a s IH]; [done|]. cbn.
  rewrite orb_true_iff. intros [Ha|Hs].
  - rewrite (Hq a Ha). cbn. by rewrite Ha.
  - destruct (Ascii.eqb a c); [by apply IH|]. cbn. rewrite IH by done.
    apply orb_true_r.
Qed.

Lemma string_exists_not_empty (q : ascii -> bool) (s : string) :
  string_exists q s = true -> s <> "".
Proof. by destruct s. Qed.

Lemma digit_is_no_separator (a : ascii) :
  is_ascii_digit a = true -> is_phone_separator a = false.
Proof.
  unfold is_ascii_digit, is_phone_separator. intros Hd.
  destruct (Ascii.eqb_spec a " ") as [->|_]; [done|].
  destruct (Ascii.eqb_spec a "-") as [->|_]; [done|].
  destruct (Ascii.eqb_spec a "+") as [->|_]; done.
Qed.

Lemma not_separator_inv (a : ascii) :
  is_phone_separator a = false ->
  Ascii.eqb a " " = false /\ Ascii.eqb a "-" = false /\ Ascii.eqb a "+" = false.
Proof.
  unfold is_phone_separator. rewrite !orb_false_iff. tauto.
Qed.

Lemma phone_digits_of_separators (phone : string) :
  string_forall is_phone_separator phone = true -> phone_digits phone = "".
Proof.
  unfold phone_digits. induction phone as [|a s IH]; [done|]. cbn.
  rewrite andb_true_iff. intros [Ha Hs]. specialize (IH Hs).
  destruct (Ascii.eqb a " ") eqn:H1; [done|]. cbn.
  destruct (Ascii.eqb a "-") eqn:H2; [done|]. cbn.
  destruct (Ascii.eqb a "+") eqn:H3; [done|].
  unfold is_phone_separator in Ha. by rewrite H1, H2, H3 in Ha.
Qed.

Lemma phone_digits_keeps (q : ascii -> bool) (phone : string) :
  (forall a, q a = true -> is_phone_separator a = false) ->
  string_exists q phone = true -> string_exists q (phone_digits phone) = true.
Proof.
  intros Hq He. unfold phone_digits.
  repeat apply string_exists_remove; try done;
    intros a Ha; by apply not_separator_inv, Hq.
Qed.

Lemma phone_digits_all_digits (phone : string) :
  string_forall (fun a => is_ascii_digit a || is_phone_separator a) phone = true ->
  string_forall is_ascii_digit (phone_digits phone) = true.
Proof.
  intros Hall. unfold phone_digits.
  apply string_forall_remove, string_forall_remove, string_forall_remove.
  eapply string_forall_impl; [|exact Hall].
  intros c. unfold is_phone_separator.
  destruct (is_ascii_digit c), (Ascii.eqb c " "), (Ascii.eqb c "-"), (Ascii.eqb c "+");
    done.
Qed.

Section Phones.
Context `{PyText}.

Lemma phone_error_iff (f : gmap string (option string)) (phone : string) :
  form_get f "phone" = Some phone -> phone <> "" ->
  (In phone_error (form_errors f) <-> py_isdigit (phone_digits phone) = false).
Proof.
  intros Hphone Hne. unfold form_errors, form_get, form_get_default in *.
  rewrite !in_app_iff. cbn [List.flat_map].
  destruct (f !! "phone") as [[p|]|] eqn:Hp; try discriminate.
  cbn in Hphone. injection Hphone as ->. cbn [default filled id].
  apply String.eqb_neq in Hne. rewrite Hne. cbn [negb andb].
  split.
  - intros [Hreq|[Hemail|Hin]].
    + exfalso. rewrite !in_app_iff in Hreq.
      destruct Hreq as [Hr|[Hr|[Hr|[]]]];
        match type of Hr with
        | In _ (if ?b then _ else _) => destruct b
        end;
        solve [destruct Hr|destruct Hr as [Hr|[]]; vm_compute in Hr; discriminate].
    + exfalso. destruct (default (Some "") (f !! "email")) as [email|]; [|done].
      destruct (negb (email =? "") && negb (contains_char "@" email));
        [|done].
      destruct Hemail as [Hemail|[]]. vm_compute in Hemail. discriminate.
    + by destruct (py_isdigit (phone_digits phone)).
  - intros ->. right. right. by left.
Qed.

(** X18. The rule for a phone number that is given: it passes when it is
    made of ASCII digits, blanks, dashes and plus signs and has a digit; it
    is refused when it has an ASCII character that is none of these, and
    also when it is made of blanks, dashes and plus signs alone. *)
Theorem phone_rule (f : gmap string (option string)) (phone : string) :
  form_get f "phone" = Some phone -> phone <> "" ->
  (string_forall (fun a => is_ascii_digit a || is_phone_separator a) phone = true ->
   string_exists is_ascii_digit phone = true ->
   ~ In phone_error (form_errors f))
  /\ (string_exists (fun a => (nat_of_ascii a <? 128)%nat
                              && negb (is_ascii_digit a)
                              && negb (is_phone_separator a)) phone = true ->
      In phone_error (form_errors f) /\ (validate_form_data f).1 = false)
  /\ (string_forall is_phone_separator phone = true ->
      In phone_error (form_errors f) /\ (validate_form_data f).1 = false).
Proof.
  intros Hphone Hne.
  pose proof (phone_error_iff f phone Hphone Hne) as Hiff.
  assert (Hinvalid : In phone_error (form_errors f) -> (validate_form_data f).1 = false).
  { unfold validate_form_data. cbn [fst]. by destruct (form_errors f). }
  split; [|split].
  - intros Hall Hdigit. rewrite Hiff.
    rewrite py_isdigit_digits; [done| |by apply phone_digits_all_digits].
    eapply string_exists_not_empty, phone_digits_keeps; [|exact Hdigit].
    apply digit_is_no_separator.
  - intros Hbad.
    assert (Hin : In phone_error (form_errors f)); [|by split; [|apply Hinvalid]].
    apply Hiff, py_isdigit_other.
    eapply string_exists_impl; [|eapply phone_digits_keeps; [|exact Hbad]].
    + intros c Hc. apply andb_true_iff in Hc as [Hc _]. exact Hc.
    + intros a Ha. apply andb_true_iff in Ha as [_ Ha]. by apply negb_true_iff.
  - intros Hsep.
    assert (Hin : In phone_error (form_errors f)); [|by split; [|apply Hinvalid]].
    apply Hiff. rewrite phone_digits_of_separators by done. apply py_isdigit_empty.
Qed.

End Phones.

(** The theorem on the phone number of the sample form. *)
Lemma phone_rule_witness :
  ~ In phone_error (form_errors (H := sample_text) sample_form).
Proof.
  assert (Hphone : form_get sample_form "phone" = Some "+265 999-123")
    by (vm_compute; reflexivity).
  destruct (phone_rule (H := sample_text) sample_form "+265 999-123" Hphone)
    as [Hpass _]; [done|].
  by apply Hpass.
Defined.

(** The theorem on the sample form. *)
Lemma valid_forms_characterised_witness :
  (validate_form_data (H := sample_text) sample_form).2 = [].
Proof.
  destruct (valid_forms_characterised (H := sample_text) sample_form) as [_ Hnil].
  apply Hnil. vm_compute. reflexivity.
Defined.

(** ** Processing a form *)

Section Processed.
Context `{PyText}.

Lemma validate_form_data_true (f : gmap string (option string)) :
  (validate_form_data f).1 = true <-> form_errors f = [].
Proof.
  unfold validate_form_data. cbn [fst]. rewrite Nat.eqb_eq.
  destruct (form_errors f); cbn; split; (done || lia).
Qed.

Lemma process_form_rejected (cfg : config) (ce : contact_env)
    (f : gmap string (option string)) (o : office) :
  (validate_form_data f).1 = false ->
  process_form cfg ce f o =
    (Rejected (form_errors f),
     add_contact_log (ValidationFailed (form_errors f))
       (add_contact_log (Processing (form_get_default f "name" "Unknown")) o)).
Proof.
  intros Hv. unfold process_form.
  destruct (validate_form_data f) as [is_valid errors] eqn:Hval.
  cbn in Hv. subst is_valid. cbn [negb].
  unfold validate_form_data in Hval. by injection Hval as _ <-.
Qed.

Lemma process_form_accepted (cfg : config) (ce : contact_env)
    (f : gmap string (option string)) (o : office) :
  (validate_form_data f).1 = true ->
  process_form cfg ce f o =
    let o0 := add_contact_log (Processing (form_get_default f "name" "Unknown")) o in
    let s := save_submission cfg ce f o0 in
    let m := send_email cfg ce f s.2 in
    let r := send_auto_reply cfg ce f m.2 in
    (Accepted s.1 m.1 r.1 (isoformat (ce_response_now ce)),
     add_contact_log (Processed (form_get f "name")) r.2).
Proof.
  intros Hv. unfold process_form.
  destruct (validate_form_data f) as [is_valid errors] eqn:Hval.
  cbn in Hv. subst is_valid. cbn [negb]. cbv zeta.
  destruct (save_submission _ _ _ _) as [saved o1].
  destruct (send_email _ _ _ _) as [sent o2]. cbn [fst snd].
  by destruct (send_auto_reply _ _ _ _) as [replied o3].
Qed.

Lemma required_field_error (f : gmap string (option string)) (field : string) :
  In field ["name"; "email"; "message"] ->
  filled (form_get f field) = false ->
  In (field ++ " is required") (form_errors f).
Proof.
  intros Hin Hf. unfold form_errors. apply in_or_app. left.
  apply in_flat_map. exists field. split; [done|]. rewrite Hf. by left.
Qed.

(** X19. A form that lacks its name, its email or its message (the key is
    absent, or its value is None or the empty text) is rejected with the
    error that names the field; no file is written for it and no message
    is handed to the mail server. *)
Theorem form_without_required_field_is_rejected (cfg : config) (ce : contact_env)
    (f : gmap string (option string)) (o : office) (field : string) :
  In field ["name"; "email"; "message"] ->
  filled (form_get f field) = false ->
  exists errors,
    (process_form cfg ce f o).1 = Rejected errors
    /\ In (field ++ " is required") errors
    /\ of_files (process_form cfg ce f o).2 = of_files o
    /\ of_outbox (process_form cfg ce f o).2 = of_outbox o.
Proof.
  intros Hin Hf.
  pose proof (required_field_error f field Hin Hf) as Herr.
  assert (Hv : (validate_form_data f).1 = false).
  { destruct ((validate_form_data f).1) eqn:Hv; [|done].
    apply validate_form_data_true in Hv. rewrite Hv in Herr. destruct Herr. }
  rewrite process_form_rejected by done. by exists (form_errors f).
Qed.

Lemma in_outbox_snoc (m : mail) (l : list mail) : In m (l ++ [m])%list.
Proof. apply in_or_app. right. by left. Qed.

Lemma smtp_session_true (r : smtp_result) (m : mail) (sent failed : contact_log)
    (o : office) :
  (smtp_session r m sent failed o).1 = true ->
  of_outbox (smtp_session r m sent failed o).2 = (of_outbox o ++ [m])%list.
Proof. by destruct r. Qed.

Lemma smtp_session_files (r : smtp_result) (m : mail) (sent failed : contact_log)
    (o : office) :
  of_files (smtp_session r m sent failed o).2 = of_files o.
Proof. by destruct r. Qed.

Lemma smtp_session_outbox (r : smtp_result) (m : mail) (sent failed : contact_log)
    (o : office) :
  exists l, of_outbox (smtp_session r m sent failed o).2 = (of_outbox o ++ l)%list.
Proof.
  destruct r; cbn; [by exists [m]|exists []|by exists [m]]. by rewrite app_nil_r.
Qed.

Lemma send_email_files (cfg : config) (ce : contact_env)
    (f : gmap string (option string)) (o : office) :
  of_files (send_email cfg ce f o).2 = of_files o.
Proof.
  unfold send_email. destruct (cfg_send_email cfg); cbn [negb]; [|done].
  apply smtp_session_files.
Qed.

Lemma send_auto_reply_files (cfg : config) (ce : contact_env)
    (f : gmap string (option string)) (o : office) :
  of_files (send_auto_reply cfg ce f o).2 = of_files o.
Proof.
  unfold send_auto_reply. destruct (form_get f "email") as [email|]; [|done].
  destruct (email =? ""); [done|]. apply smtp_session_files.
Qed.

Lemma send_email_outbox (cfg : config) (ce : contact_env)
    (f : gmap string (option string)) (o : office) :
  exists l, of_outbox (send_email cfg ce f o).2 = (of_outbox o ++ l)%list.
Proof.
  unfold send_email. destruct (cfg_send_email cfg); cbn [negb].
  - apply smtp_session_outbox.
  - exists []. cbn. by rewrite app_nil_r.
Qed.

Lemma send_auto_reply_outbox (cfg : config) (ce : contact_env)
    (f : gmap string (option string)) (o : office) :
  exists l, of_outbox (send_auto_reply cfg ce f o).2 = (of_outbox o ++ l)%list.
Proof.
  unfold send_auto_reply.
  destruct (form_get f "email") as [email|];
    [destruct (email =? "")|]; try (exists []; cbn; by rewrite app_nil_r).
  apply smtp_session_outbox.
Qed.

Lemma save_submission_outbox (cfg : config) (ce : contact_env)
    (f : gmap string (option string)) (o : office) :
  of_outbox (save_submission cfg ce f o).2 = of_outbox o.
Proof.
  unfold save_submission. destruct (cfg_save_to_file cfg); cbn [negb]; [|done].
  by destruct (ce_save ce).
Qed.

Lemma save_submission_some (cfg : config) (ce : contact_env)
    (f : gmap string (option string)) (o : office) (filename : string) :
  (save_submission cfg ce f o).1 = Some filename ->
  filename = submission_filename (ce_file_now ce)
  /\ of_files (save_submission cfg ce f o).2
     = <[ filename := Written (submission_data ce f) ]> (of_files o).
Proof.
  unfold save_submission. destruct (cfg_save_to_file cfg); cbn [negb]; [|done].
  destruct (ce_save ce); cbn; try done. by intros [= <-].
Qed.

Lemma save_submission_ok (cfg : config) (ce : contact_env)
    (f : gmap string (option string)) (o : office) :
  cfg_save_to_file cfg = true -> ce_save ce = SaveOk ->
  save_submission cfg ce f o =
    (Some (submission_filename (ce_file_now ce)),
     add_contact_log (SubmissionSaved (submission_filename (ce_file_now ce)))
       (mk_office (<[ submission_filename (ce_file_now ce)
                      := Written (submission_data ce f) ]> (of_files o))
                  (of_outbox o) (of_log o))).
Proof. intros Hsave Hok. unfold save_submission. by rewrite Hsave, Hok. Qed.

(** X20. A form that validates is always answered with success, and what
    the answer reports is backed by what was done: a submission id names a
    file that holds the form with its three added fields, a sent
    auto-reply is a message to the address of the form in the outbox, and
    a sent notification is a message to the administrator in the outbox
    when mail is switched on.  Messages handed over before stay in the
    outbox. *)
Theorem accepted_response_is_backed (cfg : config) (ce : contact_env)
    (f : gmap string (option string)) (o : office) :
  (validate_form_data f).1 = true ->
  exists submission_id email_sent auto_reply_sent rest,
    (process_form cfg ce f o).1
      = Accepted submission_id email_sent auto_reply_sent
                 (isoformat (ce_response_now ce))
    /\ (forall filename, submission_id = Some filename ->
          of_files (process_form cfg ce f o).2 !! filename
            = Some (Written (submission_data ce f)))
    /\ (email_sent = true -> cfg_send_email cfg = true ->
          exists m, In m (of_outbox (process_form cfg ce f o).2)
                    /\ m_to m = cfg_admin_email cfg)
    /\ (auto_reply_sent = true ->
          exists m, In m (of_outbox (process_form cfg ce f o).2)
                    /\ form_get f "email" = Some (m_to m))
    /\ of_outbox (process_form cfg ce f o).2 = (of_outbox o ++ rest)%list.
Proof.
  intros Hv. rewrite process_form_accepted by done. cbv zeta. cbn [fst snd].
  set (o0 := add_contact_log _ o).
  set (s := save_submission cfg ce f o0).
  set (m := send_email cfg ce f s.2).
  set (r := send_auto_reply cfg ce f m.2).
  destruct (send_email_outbox cfg ce f s.2) as [l1 Hl1].
  destruct (send_auto_reply_outbox cfg ce f m.2) as [l2 Hl2].
  fold m in Hl1. fold r in Hl2.
  assert (Hs : of_outbox s.2 = of_outbox o)
    by (unfold s; by rewrite save_submission_outbox).
  exists s.1, m.1, r.1, (l1 ++ l2)%list. split; [done|].
  cbn [add_contact_log of_files of_outbox]. repeat split.
  - intros filename Hid. destruct (save_submission_some _ _ _ _ _ Hid) as [_ Hfiles].
    unfold r. rewrite send_auto_reply_files. unfold m. rewrite send_email_files.
    unfold s. rewrite Hfiles. apply lookup_insert_eq.
  - intros Hsent Hon. unfold m, send_email in Hsent, Hl1 |- *.
    rewrite Hon in *. cbn [negb] in *.
    apply smtp_session_true in Hsent.
    eexists. split.
    + rewrite Hl2. apply in_or_app. left. unfold m, send_email.
      rewrite Hon. cbn [negb]. rewrite Hsent. apply in_outbox_snoc.
    + reflexivity.
  - intros Hreply. unfold r, send_auto_reply in Hreply |- *.
    destruct (form_get f "email") as [email|]; [|done].
    destruct (email =? ""); [done|].
    apply smtp_session_true in Hreply.
    eexists. split; [rewrite Hreply; apply in_outbox_snoc|reflexivity].
  - by rewrite Hl2, Hl1, Hs, app_assoc.
Qed.

(** X21. Two forms saved within the same second share one file: the file
    is named after the time to the second, so both answers carry the same
    submission id and the file holds the second form only. *)
Theorem same_second_submissions_share_a_file (cfg : config)
    (ce1 ce2 : contact_env) (f1 f2 : gmap string (option string)) (o : office) :
  (validate_form_data f1).1 = true ->
  (validate_form_data f2).1 = true ->
  cfg_save_to_file cfg = true ->
  ce_save ce1 = SaveOk -> ce_save ce2 = SaveOk ->
  strftime_compact (ce_file_now ce1) = strftime_compact (ce_file_now ce2) ->
  let r1 := process_form cfg ce1 f1 o in
  let r2 := process_form cfg ce2 f2 r1.2 in
  exists filename sent1 reply1 sent2 reply2,
    r1.1 = Accepted (Some filename) sent1 reply1 (isoformat (ce_response_now ce1))
    /\ r2.1 = Accepted (Some filename) sent2 reply2 (isoformat (ce_response_now ce2))
    /\ of_files r2.2 = <[ filename := Written (submission_data ce2 f2) ]> (of_files o).
Proof.
  intros Hv1 Hv2 Hsave Hok1 Hok2 Hsame. cbv zeta.
  rewrite (process_form_accepted cfg ce2 f2) by done.
  rewrite (process_form_accepted cfg ce1 f1) by done.
  cbv zeta. cbn [fst snd].
  rewrite !(save_submission_ok cfg ce1), !(save_submission_ok cfg ce2) by done.
  cbn [fst snd add_contact_log of_files].
  assert (Hname : submission_filename (ce_file_now ce1)
                  = submission_filename (ce_file_now ce2))
    by (unfold submission_filename; by rewrite Hsame).
  rewrite Hname.
  do 5 eexists. split; [reflexivity|]. split; [reflexivity|].
  repeat (rewrite ?send_auto_reply_files, ?send_email_files;
          cbn [fst snd add_contact_log of_files]).
  apply insert_insert_eq.
Qed.

(** X22. The auto-reply does not depend on the [send_email] switch: with
    mail switched off a valid form is still answered by a message to its
    address (unless the mail session fails before the message is handed
    over), no message goes to the administrator, and the answer reports
    the notification as sent. *)
Theorem auto_reply_ignores_the_email_switch (cfg : config) (ce : contact_env)
    (f : gmap string (option string)) (o : office) :
  (validate_form_data f).1 = true ->
  cfg_send_email cfg = false ->
  exists submission_id email,
    form_get f "email" = Some email
    /\ (process_form cfg ce f o).1
       = Accepted submission_id true
           (match ce_reply_smtp ce with Delivered => true | _ => false end)
           (isoformat (ce_response_now ce))
    /\ of_outbox (process_form cfg ce f o).2
       = (of_outbox o
          ++ match ce_reply_smtp ce with
             | FailsBefore => []
             | _ => [mk_mail "Thank you for contacting Western Heights Inc."
                             (cfg_company_email cfg) email]
             end)%list.
Proof.
  intros Hv Hoff.
  pose proof Hv as Hnil. apply validate_form_data_true, form_errors_nil in Hnil.
  destruct Hnil as (_ & Hemail & _). apply filled_iff in Hemail as (email & Hemail & Hne).
  rewrite process_form_accepted by done. cbv zeta. cbn [fst snd].
  exists (save_submission cfg ce f
            (add_contact_log (Processing (form_get_default f "name" "Unknown")) o)).1,
         email.
  split; [done|].
  unfold send_email. rewrite Hoff. cbn [negb fst snd].
  unfold send_auto_reply. rewrite Hemail.
  apply String.eqb_neq in Hne. rewrite Hne.
  cbn [add_contact_log of_outbox].
  destruct (ce_reply_smtp ce); cbn [smtp_session fst snd add_contact_log of_outbox];
    rewrite ?save_submission_outbox; cbn [add_contact_log of_outbox];
    rewrite ?app_nil_r; done.
Qed.

End Processed.

(** The theorem on a form without a message. *)
Lemma form_without_required_field_is_rejected_witness :
  exists errors,
    (process_form (H := sample_text) sample_config (calm (jan5_local 0))
       (delete "message" sample_form) empty_office).1 = Rejected errors
    /\ In "message is required" errors.
Proof.
  assert (Hin : In "message" ["name"; "email"; "message"]) by (right; right; by left).
  assert (Hf : filled (form_get (delete "message" sample_form) "message") = false)
    by (vm_compute; reflexivity).
  destruct (form_without_required_field_is_rejected (H := sample_text)
              sample_config (calm (jan5_local 0)) (delete "message" sample_form)
              empty_office "message" Hin Hf) as (errors & Hr & Herr & _).
  by exists errors.
Defined.

(** The theorem on the sample form, with the store and the mail server
    answering. *)
Lemma accepted_response_is_backed_witness :
  exists submission_id email_sent auto_reply_sent,
    (process_form (H := sample_text) sample_config (calm (jan5_local 0))
       sample_form empty_office).1
    = Accepted submission_id email_sent auto_reply_sent
               (isoformat (jan5_local 0)).
Proof.
  assert (Hv : (validate_form_data (H := sample_text) sample_form).1 = true)
    by (vm_compute; reflexivity).
  destruct (accepted_response_is_backed (H := sample_text) sample_config
              (calm (jan5_local 0)) sample_form empty_office Hv)
    as (sid & sent & reply & rest & Hr & _).
  by exists sid, sent, reply.
Defined.

(** The theorem on two forms sent 250 microseconds apart. *)
Lemma same_second_submissions_share_a_file_witness :
  exists filename,
    of_files
      (process_form (H := sample_text) sample_config (calm (jan5_local 250))
         (<[ "name" := Some "Grace" ]> sample_form)
         (process_form (H := sample_text) sample_config (calm (jan5_local 0))
            sample_form empty_office).2).2
    = {[ filename := Written (submission_data (calm (jan5_local 250))
                                (<[ "name" := Some "Grace" ]> sample_form)) ]}.
Proof.
  assert (Hv1 : (validate_form_data (H := sample_text) sample_form).1 = true)
    by (vm_compute; reflexivity).
  assert (Hv2 : (validate_form_data (H := sample_text)
                   (<[ "name" := Some "Grace" ]> sample_form)).1 = true)
    by (vm_compute; reflexivity).
  assert (Hsame : strftime_compact (ce_file_now (calm (jan5_local 0)))
                  = strftime_compact (ce_file_now (calm (jan5_local 250))))
    by (vm_compute; reflexivity).
  destruct (same_second_submissions_share_a_file (H := sample_text) sample_config
              (calm (jan5_local 0)) (calm (jan5_local 250))
              sample_form (<[ "name" := Some "Grace" ]> sample_form) empty_office
              Hv1 Hv2 eq_refl eq_refl eq_refl Hsame)
    as (filename & _ & _ & _ & _ & _ & _ & Hfiles).
  exists filename. rewrite Hfiles. reflexivity.
Defined.

(** The theorem on the sample form, with mail switched off. *)
Lemma auto_reply_ignores_the_email_switch_witness :
  of_outbox
    (process_form (H := sample_text)
       (mk_config true false "info@westernheights.inc"
                  "bdarlingtone@westernheights.inc")
       (calm (jan5_local 0)) sample_form empty_office).2
  = [mk_mail "Thank you for contacting Western Heights Inc."
             "info@westernheights.inc" "ada@example.org"].
Proof.
  assert (Hv : (validate_form_data (H := sample_text) sample_form).1 = true)
    by (vm_compute; reflexivity).
  destruct (auto_reply_ignores_the_email_switch (H := sample_text)
              (mk_config true false "info@westernheights.inc"
                         "bdarlingtone@westernheights.inc")
              (calm (jan5_local 0)) sample_form empty_office Hv eq_refl)
    as (sid & email & Hemail & _ & Hout).
  rewrite Hout. vm_compute in Hemail. injection Hemail as <-. reflexivity.
Defined.

(** ** The contact endpoint *)

Section ContactEndpoint.
Context `{PyRuntime} `{PyText}.

Lemma contact_form_data_not_empty (rq : request) :
  (from_option PStr PNone <$> App.contact_form_data rq : gmap string pyval) <> ∅.
Proof.
  intros Hempty.
  assert (Hname : (from_option PStr PNone <$> App.contact_form_data rq)
                    !! "name" = (None : option pyval))
    by (by rewrite Hempty).
  rewrite lookup_fmap in Hname. unfold App.contact_form_data in Hname.
  by rewrite lookup_insert_eq in Hname.
Qed.

Lemma api_contact_office (cfg : config) (ce : contact_env) (e : env) (rq : request)
    (o : office) (st : site) :
  (App.api_contact cfg ce e rq o st).1.2
  = (process_form cfg ce (App.contact_form_data rq) o).2.
Proof.
  unfold App.api_contact.
  destruct (process_form cfg ce (App.contact_form_data rq) o) as [result o'].
  by destruct (track_conversion _ _ _ _ _ _) as [[[]|ex] w'].
Qed.

(** X23. Every request to the contact endpoint is recorded as a
    conversion when the store answers, also when the form is rejected:
    one conversion of type contact_form and value 1 is added, under the
    session id of the cookie, or under 'unknown' without a cookie; the
    answer is the result of [process_form]. *)
Theorem contact_request_is_always_a_conversion (cfg : config) (ce : contact_env)
    (e : env) (rq : request) (o : office) (st : site) :
  e_connect_fails e = false ->
  e_exec_fails e 0 = false ->
  e_commit_fails e = false ->
  succeeds (json_dumps (from_option PStr PNone <$> App.contact_form_data rq)) = true ->
  (App.api_contact cfg ce e rq o st).1.1
    = FormResult (process_form cfg ce (App.contact_form_data rq) o).1
  /\ exists c,
       conversions (w_store (st_world (App.api_contact cfg ce e rq o st).2))
         = (conversions (w_store (st_world st)) ++ [c])%list
       /\ cv_session_id c = Some (default "unknown" (rq_cookies rq !! "session_id"))
       /\ cv_conversion_type c = Some "contact_form"
       /\ cv_conversion_value c = SInt 1
       /\ cv_timestamp c = e_sql_now e.
Proof.
  intros Hc Hx Hk Hjson. unfold App.api_contact.
  destruct (process_form cfg ce (App.contact_form_data rq) o) as [result o'].
  rewrite track_conversion_cases by done.
  unfold conversion_body, form_data_param.
  rewrite bool_decide_eq_false_2 by apply contact_form_data_not_empty.
  destruct (json_dumps _) as [ex|text]; [discriminate|].
  cbn [text_param bind_param]. res_steps. rewrite Hx, Hk. res_steps.
  cbn. split; [done|]. eexists. by repeat split.
Qed.

(** X24. The form is processed whatever happens to the tracking that
    follows: files and messages are as [process_form] left them.  The
    endpoint answers with the internal error exactly when the store cannot
    be opened, and then the visitor is told of a failure although a valid
    form was saved and mailed; every other failure of the tracking is
    swallowed. *)
Theorem contact_form_is_processed_before_tracking (cfg : config) (ce : contact_env)
    (e : env) (rq : request) (o : office) (st : site) :
  (App.api_contact cfg ce e rq o st).1.2
    = (process_form cfg ce (App.contact_form_data rq) o).2
  /\ ((App.api_contact cfg ce e rq o st).1.1 = InternalError
      <-> e_connect_fails e = true)
  /\ (e_connect_fails e = false ->
      (App.api_contact cfg ce e rq o st).1.1
        = FormResult (process_form cfg ce (App.contact_form_data rq) o).1).
Proof.
  split; [apply api_contact_office|].
  unfold App.api_contact.
  destruct (process_form cfg ce (App.contact_form_data rq) o) as [result o'].
  destruct (e_connect_fails e) eqn:Hc.
  - unfold track_conversion. rewrite Hc. by cbn.
  - rewrite track_conversion_cases by done.
    destruct (conversion_body _ _ _ _ _ _); by cbn.
Qed.

End ContactEndpoint.

(** The theorem on a request with an empty form: it is rejected and
    counted as a conversion. *)
Lemma contact_request_is_always_a_conversion_witness :
  let r := App.api_contact (H := sample_runtime) (H0 := sample_text)
             sample_config (calm (jan5_local 0))
             (no_faults (jan5 9 0 0) jan5_local)
             (mk_request "/contact" ∅ None None None JsonError ∅)
             empty_office (mk_site (mk_world (mk_db [] [] [] 0 0) [] 0) []) in
  (exists errors, r.1.1 = FormResult (Rejected errors))
  /\ length (conversions (w_store (st_world r.2))) = 1.
Proof.
  cbv zeta.
  destruct (contact_request_is_always_a_conversion (H := sample_runtime)
              (H0 := sample_text) sample_config (calm (jan5_local 0))
              (no_faults (jan5 9 0 0) jan5_local)
              (mk_request "/contact" ∅ None None None JsonError ∅)
              empty_office (mk_site (mk_world (mk_db [] [] [] 0 0) [] 0) [])
              eq_refl eq_refl eq_refl eq_refl)
    as (Hr & c & Hconv & _).
  split.
  - rewrite Hr. eexists. vm_compute. reflexivity.
  - rewrite Hconv. reflexivity.
Defined.
